(** * Health calculator: a shallow embedding of [health-calculator.ts]

    The module scores a repository record returned by the hosting API:
    five sub-scores, their rounded mean, and a display record with
    signals, a trend and a relative-time text.

    Modelling conventions.
    - A JavaScript number that holds an integer is a [Z]; a number that
      may also be [NaN] (a day count derived from a date string that does
      not parse) is an [option Z], [None] standing for [NaN].
    - Divisions of integers are carried out in [Q]: [Math.ceil],
      [Math.floor] and [Math.round] take a rational.  The quotients that
      occur ([|now - date| / 86400000] for instants in the range of
      [Date], [days / 7], a sum of five scores divided by 5) are either
      integers or further from the integer or half-integer that decides
      the result than a binary64 rounding error, so the rational result
      is the one the double computation gives.
    - The products [contributors * 0.3] and [contributors * 0.5] are
      binary64 products: they are computed with [SFmul 53 1024], the
      reference model of the multiplication of Rocq's kernel floats.
    - [new Date()] reads the wall clock.  A clock is the sequence of its
      future readings, and every function that reads it lives in the
      state monad [IO] over that sequence. *)

From Stdlib Require Import ZArith QArith Qround Lia Lqa List String Ascii Bool.
From Stdlib Require Import DecimalString SpecFloat PrimFloat FloatOps.
From Stdlib Require Import Sorted Permutation DecimalPos DecimalZ.
Import ListNotations.
Local Open Scope string_scope.
Local Open Scope Z_scope.

(* ===================================================================== *)
(** ** The host language *)
(* ===================================================================== *)

Module JS.

(** An integer-valued number or [NaN]. *)
Definition number := option Z.

(** Relational operators against an integer literal: every comparison
    with [NaN] is false. *)
Definition le (x : number) (k : Z) : bool :=
  match x with Some z => z <=? k | None => false end.
Definition lt (x : number) (k : Z) : bool :=
  match x with Some z => z <? k | None => false end.
Definition gt (x : number) (k : Z) : bool :=
  match x with Some z => z >? k | None => false end.
Definition strict_eq (x : number) (k : Z) : bool :=
  match x with Some z => z =? k | None => false end.

(** [String(n)] and the interpolation of a number in a template. *)
Definition String_of (z : Z) : string := NilZero.string_of_int (Z.to_int z).
Definition interpolate (x : number) : string :=
  match x with Some z => String_of z | None => "NaN" end.

(** Truthiness of the optional values the module tests. *)
Definition truthy_string (s : option string) : bool :=
  match s with
  | Some s => negb (String.eqb s "")
  | None => false
  end.
Definition truthy_bool (b : option bool) : bool :=
  match b with Some b => b | None => false end.

(** [x || d] on an optional number and on an optional string. *)
Definition or_number (n : option Z) (d : Z) : Z :=
  match n with
  | Some z => if z =? 0 then d else z
  | None => d
  end.
Definition or_string (s : option string) (d : string) : string :=
  match s with
  | Some s => if String.eqb s "" then d else s
  | None => d
  end.

(** [arr.push(x)]. *)
Definition push {A} (arr : list A) (x : A) : list A := (arr ++ [x])%list.

(** Binary64 values. *)
Definition double := spec_float.
Definition prec : Z := 53.
Definition emax : Z := 1024.

(** The double nearest to an integer (the integer itself below [2^53]). *)
Definition Number_of_Z (z : Z) : double := binary_normalize prec emax z 0 false.

(** The literals [0.3] and [0.5]. *)
Definition lit_0_3 : double := S754_finite false 5404319552844595 (-54).
Definition lit_0_5 : double := S754_finite false 4503599627370496 (-53).

Definition mul (x y : double) : double := SFmul prec emax x y.

End JS.

Module Math.

Definition abs (z : Z) : Z := Z.abs z.
Definition min (a b : Z) : Z := Z.min a b.
Definition ceil (q : Q) : Z := Qceiling q.
Definition floor (q : Q) : Z := Qfloor q.

(** [Math.round]: the nearest integer, a tie going towards +infinity. *)
Definition round (q : Q) : Z := Qfloor (q + (1 # 2)).

(** [Math.floor] of a double; [None] when the argument is not finite. *)
Definition floor_double (x : JS.double) : JS.number :=
  match x with
  | S754_zero _ => Some 0
  | S754_finite s m e =>
      let v := if s then Z.neg m else Z.pos m in
      Some (if 0 <=? e then v * 2 ^ e else v / 2 ^ (- e))
  | S754_infinity _ | S754_nan => None
  end.

End Math.

(* ===================================================================== *)
(** ** The wall clock *)
(* ===================================================================== *)

(** The clock as the sequence of the readings still to come, in
    milliseconds since the epoch. *)
Definition Clock := nat -> Z.

Definition IO (A : Type) : Type := Clock -> A * Clock.

Definition ret {A} (a : A) : IO A := fun w => (a, w).

Definition bind {A B} (c : IO A) (k : A -> IO B) : IO B :=
  fun w => let (a, w') := c w in k a w'.

Notation "x <- c ;; k" := (bind c (fun x => k))
  (at level 61, c at next level, right associativity).

(** [new Date().getTime()]: the next reading. *)
Definition now_getTime : IO Z := fun w => (w 0%nat, fun n => w (S n)).

(** The result of a computation started on clock [w]. *)
Definition run {A} (c : IO A) (w : Clock) : A := fst (c w).

(** The clock once [n] readings were taken. *)
Definition after (n : nat) (w : Clock) : Clock := fun k => w (n + k)%nat.

(** A clock that stands still at [t]. *)
Definition frozen (t : Z) : Clock := fun _ => t.

(** A clock that starts at [t] and advances by one millisecond from one
    reading to the next. *)
Definition ticking (t : Z) : Clock := fun n => t + Z.of_nat n.

(* ===================================================================== *)
(** ** Data *)
(* ===================================================================== *)

(** A date string of the input, as [new Date(s).getTime()] sees it: the
    instant in epoch milliseconds, or [None] ([NaN]) when the string is
    not a date. *)
Definition DateString := option Z.

Record License := { spdx_id : string; license_name : string }.

Record GitHubRepoData := {
  id : Z;
  name : string;
  full_name : string;
  description : option string;
  stargazers_count : Z;
  language : option string;
  license : option License;
  open_issues_count : Z;
  pushed_at : DateString;
  created_at : DateString;
  updated_at : DateString;
  topics : list string;
  has_wiki : bool;
  has_pages : bool;
  homepage : option string;
  contributors : option Z;
  goodFirstIssues : option Z;
  hasCI : option bool
}.

Inductive Trend := up | down | stable.

Inductive CiStatus := passing | warning.

Record HealthBreakdown := {
  activity : Z;
  community : Z;
  documentation : Z;
  freshness : Z;
  compatibility : Z
}.

(** The display record, with the field names of the source. *)
Module Repository.

Record t := {
  id : string;
  name : string;
  description : string;
  stars : Z;
  healthScore : Z;
  lastCommit : string;
  goodFirstIssues : Z;
  ciStatus : CiStatus;
  language : string;
  license : string;
  contributors : Z;
  topics : list string;
  signals : list string;
  trend : Trend;
  healthBreakdown : HealthBreakdown;
  avgIssueResponseTime : string;
  prMergeRate : Z;
  activeContributors : JS.number;
  contributorDiversity : JS.number;
  codeCoverage : Z;
  hasGoodDocs : bool;
  hasWiki : bool;
  hasWebsite : bool
}.

End Repository.

(* ===================================================================== *)
(** ** Time utilities *)
(* ===================================================================== *)

Definition getDaysSince (dateString : DateString) : IO JS.number :=
  now <- now_getTime ;;
  let diffTime := option_map (fun date => Math.abs (now - date)) dateString in
  let diffDays :=
    option_map (fun d => Math.ceil (inject_Z d / inject_Z (1000 * 60 * 60 * 24)))
               diffTime in
  ret diffDays.

Definition getTimeAgo (dateString : DateString) : IO string :=
  days <- getDaysSince dateString ;;
  ret (if JS.strict_eq days 0 then "today"
       else if JS.strict_eq days 1 then "1 day ago"
       else if JS.lt days 7 then JS.interpolate days ++ " days ago"
       else if JS.lt days 30 then
         let weeks := option_map (fun d => Math.floor (inject_Z d / inject_Z 7)) days in
         if JS.strict_eq weeks 1 then "1 week ago"
         else JS.interpolate weeks ++ " weeks ago"
       else if JS.lt days 365 then
         let months := option_map (fun d => Math.floor (inject_Z d / inject_Z 30)) days in
         if JS.strict_eq months 1 then "1 month ago"
         else JS.interpolate months ++ " months ago"
       else
         let years := option_map (fun d => Math.floor (inject_Z d / inject_Z 365)) days in
         if JS.strict_eq years 1 then "1 year ago"
         else JS.interpolate years ++ " years ago").

(* ===================================================================== *)
(** ** Sub-scores *)
(* ===================================================================== *)

Definition calculateActivityScore (pushedAt : DateString) : IO Z :=
  daysSinceLastPush <- getDaysSince pushedAt ;;
  ret (if JS.le daysSinceLastPush 7 then 95
       else if JS.le daysSinceLastPush 14 then 90
       else if JS.le daysSinceLastPush 30 then 85
       else if JS.le daysSinceLastPush 60 then 75
       else if JS.le daysSinceLastPush 90 then 65
       else if JS.le daysSinceLastPush 180 then 50
       else 30).

Definition calculateCommunityScore (stars contributors : Z) : Z :=
  let score := 0 in
  let score :=
    if stars >=? 50000 then score + 50
    else if stars >=? 10000 then score + 45
    else if stars >=? 5000 then score + 40
    else if stars >=? 1000 then score + 35
    else if stars >=? 500 then score + 25
    else score + 15 in
  let score :=
    if contributors >=? 500 then score + 50
    else if contributors >=? 100 then score + 45
    else if contributors >=? 50 then score + 40
    else if contributors >=? 20 then score + 30
    else if contributors >=? 10 then score + 20
    else score + 10 in
  Math.min 100 score.

Definition calculateDocumentationScore
    (description : option string) (hasWiki hasPages : bool)
    (homepage : option string) : Z :=
  let score := 0 in
  let score :=
    if match description with
       | Some d => negb (String.eqb d "") && (Z.of_nat (String.length d) >? 20)
       | None => false
       end
    then score + 25 else score in
  let score := if hasWiki then score + 25 else score in
  let score := if hasPages then score + 25 else score in
  let score := if JS.truthy_string homepage then score + 25 else score in
  score.

Definition calculateFreshnessScore (createdAt pushedAt : DateString) : IO Z :=
  daysSinceCreation <- getDaysSince createdAt ;;
  daysSinceLastPush <- getDaysSince pushedAt ;;
  ret (if JS.lt daysSinceCreation 365 then
         if JS.le daysSinceLastPush 30 then 95
         else if JS.le daysSinceLastPush 90 then 85
         else 70
       else if JS.le daysSinceLastPush 7 then 95
       else if JS.le daysSinceLastPush 30 then 85
       else if JS.le daysSinceLastPush 90 then 70
       else if JS.le daysSinceLastPush 180 then 55
       else 35).

Definition calculateCompatibilityScore
    (license : option License) (hasCI : option bool) (topics : list string) : Z :=
  let score := 0 in
  let score := match license with Some _ => score + 40 | None => score end in
  let score := if JS.truthy_bool hasCI then score + 30 else score in
  let score := if Z.of_nat (List.length topics) >? 0 then score + 30 else score in
  score.

(* ===================================================================== *)
(** ** The health score and the transformer *)
(* ===================================================================== *)

Definition calculateHealthScore (repo : GitHubRepoData) : IO Z :=
  let scores : list Z := [] in
  activityScore <- calculateActivityScore (pushed_at repo) ;;
  let scores := JS.push scores activityScore in
  let communityScore :=
    calculateCommunityScore (stargazers_count repo)
                            (JS.or_number (contributors repo) 0) in
  let scores := JS.push scores communityScore in
  let documentationScore :=
    calculateDocumentationScore (description repo) (has_wiki repo)
                                (has_pages repo) (homepage repo) in
  let scores := JS.push scores documentationScore in
  freshnessScore <- calculateFreshnessScore (created_at repo) (pushed_at repo) ;;
  let scores := JS.push scores freshnessScore in
  let compatibilityScore :=
    calculateCompatibilityScore (license repo) (hasCI repo) (topics repo) in
  let scores := JS.push scores compatibilityScore in
  let total : Z := fold_left (fun sum score => sum + score) scores 0 in
  let averageScore : Q :=
    (inject_Z total / inject_Z (Z.of_nat (List.length scores)))%Q in
  ret (Math.round averageScore).

(** The unused [owner] of [full_name.split('/')] is left out. *)
Definition transformGitHubRepoToRepository (githubRepo : GitHubRepoData)
  : IO Repository.t :=
  healthScore <- calculateHealthScore githubRepo ;;
  b_activity <- calculateActivityScore (pushed_at githubRepo) ;;
  let b_community :=
    calculateCommunityScore (stargazers_count githubRepo)
                            (JS.or_number (contributors githubRepo) 0) in
  let b_documentation :=
    calculateDocumentationScore (description githubRepo) (has_wiki githubRepo)
                                (has_pages githubRepo) (homepage githubRepo) in
  b_freshness <-
    calculateFreshnessScore (created_at githubRepo) (pushed_at githubRepo) ;;
  let b_compatibility :=
    calculateCompatibilityScore (license githubRepo) (hasCI githubRepo)
                                (topics githubRepo) in
  let healthBreakdown :=
    {| activity := b_activity;
       community := b_community;
       documentation := b_documentation;
       freshness := b_freshness;
       compatibility := b_compatibility |} in
  daysSinceLastPush <- getDaysSince (pushed_at githubRepo) ;;
  let trend := stable in
  let trend :=
    if JS.le daysSinceLastPush 7 then up
    else if JS.gt daysSinceLastPush 90 then down
    else trend in
  let signals : list string := [] in
  let signals :=
    if JS.le daysSinceLastPush 7 then JS.push signals "Active" else signals in
  let signals :=
    if has_wiki githubRepo || has_pages githubRepo
       || JS.truthy_string (homepage githubRepo)
    then JS.push signals "Good Docs" else signals in
  let signals :=
    if match goodFirstIssues githubRepo with
       | Some g => negb (g =? 0) && (g >? 0)
       | None => false
       end
    then JS.push signals "Beginner Friendly" else signals in
  let signals :=
    if stargazers_count githubRepo >=? 10000
    then JS.push signals "Large Community" else signals in
  daysSinceCreation <- getDaysSince (created_at githubRepo) ;;
  let signals :=
    if JS.lt daysSinceCreation 730 then JS.push signals "Modern" else signals in
  lastCommit <- getTimeAgo (pushed_at githubRepo) ;;
  ret {| Repository.id := JS.String_of (id githubRepo);
         Repository.name := name githubRepo;
         Repository.description :=
           JS.or_string (description githubRepo) "No description available";
         Repository.stars := stargazers_count githubRepo;
         Repository.healthScore := healthScore;
         Repository.lastCommit := lastCommit;
         Repository.goodFirstIssues := JS.or_number (goodFirstIssues githubRepo) 0;
         Repository.ciStatus :=
           if JS.truthy_bool (hasCI githubRepo) then passing else warning;
         Repository.language := JS.or_string (language githubRepo) "Unknown";
         Repository.license :=
           JS.or_string (option_map license_name (license githubRepo)) "No License";
         Repository.contributors := JS.or_number (contributors githubRepo) 0;
         Repository.topics := topics githubRepo;
         Repository.signals := signals;
         Repository.trend := trend;
         Repository.healthBreakdown := healthBreakdown;
         Repository.avgIssueResponseTime := "< 2 days";
         Repository.prMergeRate := 75;
         Repository.activeContributors :=
           Math.floor_double
             (JS.mul (JS.Number_of_Z (JS.or_number (contributors githubRepo) 0))
                     JS.lit_0_3);
         Repository.contributorDiversity :=
           Math.floor_double
             (JS.mul (JS.Number_of_Z (JS.or_number (contributors githubRepo) 0))
                     JS.lit_0_5);
         Repository.codeCoverage := 80;
         Repository.hasGoodDocs :=
           has_wiki githubRepo || has_pages githubRepo
           || JS.truthy_string (homepage githubRepo);
         Repository.hasWiki := has_wiki githubRepo;
         Repository.hasWebsite := JS.truthy_string (homepage githubRepo) |}.

(* ===================================================================== *)
(** ** The specification's tables *)
(* ===================================================================== *)

(** The definitions of this module follow the specification's wording,
    not the code: bucket tables are data, read first match wins. *)
Module Spec.

Definition msPerDay : Z := 86400000.

(** Rows [(t, s)] read "at most [t] gives [s]"; [NaN] matches no row. *)
Fixpoint first_at_most (table : list (Z * Z)) (otherwise : Z) (d : JS.number) : Z :=
  match table with
  | [] => otherwise
  | (t, s) :: rest => if JS.le d t then s else first_at_most rest otherwise d
  end.

(** Rows [(t, s)] read "at least [t] gives [s]". *)
Fixpoint first_at_least (table : list (Z * Z)) (otherwise : Z) (n : Z) : Z :=
  match table with
  | [] => otherwise
  | (t, s) :: rest => if t <=? n then s else first_at_least rest otherwise n
  end.

Definition activity_table : list (Z * Z) :=
  [(7, 95); (14, 90); (30, 85); (60, 75); (90, 65); (180, 50)].
Definition stars_table : list (Z * Z) :=
  [(50000, 50); (10000, 45); (5000, 40); (1000, 35); (500, 25)].
Definition contributors_table : list (Z * Z) :=
  [(500, 50); (100, 45); (50, 40); (20, 30); (10, 20)].
Definition young_table : list (Z * Z) := [(30, 95); (90, 85)].
Definition mature_table : list (Z * Z) := [(7, 95); (30, 85); (90, 70); (180, 55)].

Definition freshness_policy (daysSinceCreation daysSinceLastPush : JS.number) : Z :=
  if JS.lt daysSinceCreation 365
  then first_at_most young_table 70 daysSinceLastPush
  else first_at_most mature_table 35 daysSinceLastPush.

(** "1 week ago" / "{n} weeks ago". *)
Definition counted (n : Z) (unit : string) : string :=
  if n =? 1 then "1 " ++ unit ++ " ago"
  else JS.String_of n ++ " " ++ unit ++ "s ago".

Definition timeAgo (days : Z) : string :=
  if days =? 0 then "today"
  else if days =? 1 then "1 day ago"
  else if (2 <=? days) && (days <=? 6) then JS.String_of days ++ " days ago"
  else if (7 <=? days) && (days <=? 29) then counted (days / 7) "week"
  else if (30 <=? days) && (days <=? 364) then counted (days / 30) "month"
  else if 365 <=? days then counted (days / 365) "year"
  else "".

(** The labels of a signal list, in the order of the list, that hold. *)
Fixpoint labels_that_hold (l : list (string * bool)) : list string :=
  match l with
  | [] => []
  | (label, true) :: rest => label :: labels_that_hold rest
  | (_, false) :: rest => labels_that_hold rest
  end.

(** [h] is [q] rounded to the nearest integer, a half rounding up. *)
Definition rounds_half_up_to (q : Q) (h : Z) : Prop :=
  (inject_Z h - (1 # 2) <= q /\ q < inject_Z h + (1 # 2))%Q.

Definition mean (b : HealthBreakdown) : Q :=
  (inject_Z (activity b + community b + documentation b
             + freshness b + compatibility b) / inject_Z 5)%Q.

End Spec.

(* ===================================================================== *)
(** ** Vocabulary of the statements *)
(* ===================================================================== *)

(** The day count [getDaysSince] returns when the clock reads [now]. *)
Definition daysAt (now : Z) (dateString : DateString) : JS.number :=
  run (getDaysSince dateString) (frozen now).

(** A date [n] whole days before [now]. *)
Definition daysBefore (now n : Z) : DateString := Some (now - n * Spec.msPerDay).

(** The sub-scores one call of [calculateHealthScore] computes, with the
    clock readings it takes: one for the activity score, then two for the
    freshness score. *)
Definition subscores (repo : GitHubRepoData) (w : Clock) : HealthBreakdown :=
  {| activity := run (calculateActivityScore (pushed_at repo)) w;
     community :=
       calculateCommunityScore (stargazers_count repo)
                               (JS.or_number (contributors repo) 0);
     documentation :=
       calculateDocumentationScore (description repo) (has_wiki repo)
                                   (has_pages repo) (homepage repo);
     freshness :=
       run (calculateFreshnessScore (created_at repo) (pushed_at repo)) (after 1 w);
     compatibility :=
       calculateCompatibilityScore (license repo) (hasCI repo) (topics repo) |}.

(** An optional count that is present and positive. *)
Definition positive_count (n : option Z) : bool :=
  match n with Some g => 0 <? g | None => false end.

(** The five labels with their conditions, for the call started on clock
    [w]: the transformer reads the day count of the push at its seventh
    clock reading and the day count of the creation at its eighth. *)
Definition signal_conditions (repo : GitHubRepoData) (w : Clock)
  : list (string * bool) :=
  [ ("Active", JS.le (daysAt (w 6%nat) (pushed_at repo)) 7);
    ("Good Docs", has_wiki repo || has_pages repo || JS.truthy_string (homepage repo));
    ("Beginner Friendly", positive_count (goodFirstIssues repo));
    ("Large Community", 10000 <=? stargazers_count repo);
    ("Modern", JS.lt (daysAt (w 7%nat) (created_at repo)) 730) ].

(** The record after [n >= 1] one-bit right shifts of an exact mantissa
    [m]: the digits kept, the last digit dropped, and whether a digit
    below that one was set. *)
Definition shifted (m n : Z) : shr_record :=
  Build_shr_record (m / 2 ^ n) (Z.odd (m / 2 ^ (n - 1)))
                   (negb (m mod 2 ^ (n - 1) =? 0)).

(** [m / 2^n] rounded to the nearest integer, a tie going to the even one. *)
Definition nearest_even (m n : Z) : Z :=
  let q := m / 2 ^ n in
  let rem := m mod 2 ^ n in
  match 2 * rem ?= 2 ^ n with
  | Lt => q
  | Eq => if Z.even q then q else q + 1
  | Gt => q + 1
  end.

(* ===================================================================== *)
(** ** Sample inputs *)
(* ===================================================================== *)

(** A long-abandoned repository with nothing to show: pushed and created
    at the epoch, every optional field absent. *)
Definition abandoned : GitHubRepoData :=
  {| id := 2; name := "old"; full_name := "owner/old";
     description := None; stargazers_count := 0; language := None;
     license := None; open_issues_count := 0;
     pushed_at := Some 0; created_at := Some 0; updated_at := Some 0;
     topics := []; has_wiki := false; has_pages := false; homepage := None;
     contributors := None; goodFirstIssues := None; hasCI := None |}.

(** The same repository, pushed on day 1000. *)
Definition week_old_push : GitHubRepoData :=
  {| id := 1; name := "repo"; full_name := "owner/repo";
     description := None; stargazers_count := 0; language := None;
     license := None; open_issues_count := 0;
     pushed_at := Some (1000 * Spec.msPerDay);
     created_at := Some 0; updated_at := Some 0;
     topics := []; has_wiki := false; has_pages := false; homepage := None;
     contributors := None; goodFirstIssues := None; hasCI := None |}.

(** A thriving repository, created at the epoch and pushed on day 1000. *)
Definition thriving : GitHubRepoData :=
  {| id := 3; name := "new"; full_name := "owner/new";
     description := Some "A description of more than twenty characters";
     stargazers_count := 60000; language := Some "TypeScript";
     license := Some {| spdx_id := "MIT"; license_name := "MIT License" |};
     open_issues_count := 12;
     pushed_at := Some (1000 * Spec.msPerDay);
     created_at := Some 0; updated_at := Some (1000 * Spec.msPerDay);
     topics := ["search"]; has_wiki := true; has_pages := true;
     homepage := Some "https://example.org";
     contributors := Some 700; goodFirstIssues := Some 4; hasCI := Some true |}.

(** A repository on every boundary of the signal conditions when the
    clock stands on day 1001: pushed 7 days ago, created 729 days ago,
    10000 stars, one good first issue, a homepage only. *)
Definition all_signals : GitHubRepoData :=
  {| id := 4; name := "young"; full_name := "owner/young";
     description := Some "A description of more than twenty characters";
     stargazers_count := 10000; language := Some "TypeScript";
     license := Some {| spdx_id := "MIT"; license_name := "MIT License" |};
     open_issues_count := 12;
     pushed_at := Some (994 * Spec.msPerDay);
     created_at := Some (272 * Spec.msPerDay);
     updated_at := Some (994 * Spec.msPerDay);
     topics := ["search"]; has_wiki := false; has_pages := false;
     homepage := Some "https://example.org";
     contributors := Some 12; goodFirstIssues := Some 1; hasCI := Some true |}.

(** A repository whose contributor count is a large integer that a
    double holds exactly. *)
Definition huge_team : GitHubRepoData :=
  {| id := 5; name := "huge"; full_name := "owner/huge";
     description := None; stargazers_count := 0; language := None;
     license := None; open_issues_count := 0;
     pushed_at := Some 0; created_at := Some 0; updated_at := Some 0;
     topics := []; has_wiki := false; has_pages := false; homepage := None;
     contributors := Some 8000000000000003; goodFirstIssues := None;
     hasCI := None |}.

(* ===================================================================== *)
(** ** Shapes of the relative-time text *)
(* ===================================================================== *)

Inductive TimeUnit := Day | Week | Month | Year.

Definition unit_name (u : TimeUnit) : string :=
  match u with Day => "day" | Week => "week" | Month => "month" | Year => "year" end.

(** The largest count [getTimeAgo] prints for a unit, if there is one. *)
Definition unit_limit (u : TimeUnit) : option Z :=
  match u with Day => Some 6 | Week => Some 4 | Month => Some 12 | Year => None end.

Definition within (n : Z) (limit : option Z) : Prop :=
  match limit with Some l => n <= l | None => True end.

(** The texts [getTimeAgo] can return for a date that parses. *)
Inductive TimeAgoText : string -> Prop :=
| text_today : TimeAgoText "today"
| text_one (u : TimeUnit) : TimeAgoText ("1 " ++ unit_name u ++ " ago")
| text_many (u : TimeUnit) (n : Z) :
    2 <= n -> within n (unit_limit u) ->
    TimeAgoText (JS.String_of n ++ " " ++ unit_name u ++ "s ago").

(** A repository created 100 days before day 1000 of the epoch, whose push
    date does not parse. *)
Definition unpushed : GitHubRepoData :=
  {| id := 6; name := "unpushed"; full_name := "owner/unpushed";
     description := None; stargazers_count := 0; language := None;
     license := None; open_issues_count := 0;
     pushed_at := None;
     created_at := daysBefore (1000 * Spec.msPerDay) 100;
     updated_at := None;
     topics := []; has_wiki := false; has_pages := false; homepage := None;
     contributors := None; goodFirstIssues := None; hasCI := None |}.

(** The input with another star count and contributor count. *)
Definition with_popularity (repo : GitHubRepoData) (stars : Z)
    (contributorCount : option Z) : GitHubRepoData :=
  {| id := id repo; name := name repo; full_name := full_name repo;
     description := description repo; stargazers_count := stars;
     language := language repo; license := license repo;
     open_issues_count := open_issues_count repo;
     pushed_at := pushed_at repo; created_at := created_at repo;
     updated_at := updated_at repo; topics := topics repo;
     has_wiki := has_wiki repo; has_pages := has_pages repo;
     homepage := homepage repo; contributors := contributorCount;
     goodFirstIssues := goodFirstIssues repo; hasCI := hasCI repo |}.

(* ===================================================================== *)
(** ** The search results page: [SearchResultsPage.tsx] *)
(* ===================================================================== *)

(** [arr.includes(x)] on strings. *)
Definition includes (arr : list string) (x : string) : bool :=
  existsb (fun y => String.eqb y x) arr.

Module SearchResultsPage.

Record FilterOptions := {
  languages : list string;
  activityDays : Z;
  healthRange : Z * Z;
  hasGoodFirstIssues : bool;
  minIssues : Z;
  hasCi : bool;
  hasDocs : bool;
  license : string
}.

(** The initial state of [filters]. *)
Definition initialFilters : FilterOptions :=
  {| languages := []; activityDays := 30; healthRange := (0, 100);
     hasGoodFirstIssues := false; minIssues := 0; hasCi := false;
     hasDocs := false; license := "" |}.

(** The updater of [handleBookmark]. *)
Definition handleBookmark (repoId : string) (prev : list string) : list string :=
  if includes prev repoId
  then filter (fun id => negb (String.eqb id repoId)) prev
  else (prev ++ [repoId])%list.

(** The updater of [handleCompare]: the next selection, and the
    repositories handed to [onCompare] by the timer it sets, if it sets
    one. *)
Definition handleCompare (repositories : list Repository.t) (repoId : string)
    (prev : list string) : list string * option (list Repository.t) :=
  let newComparing :=
    if includes prev repoId
    then filter (fun id => negb (String.eqb id repoId)) prev
    else if Z.of_nat (List.length prev) <? 3
         then (prev ++ [repoId])%list
         else prev in
  let scheduled :=
    if Z.of_nat (List.length newComparing) >? 1
    then Some (filter (fun r => includes newComparing (Repository.id r)) repositories)
    else None in
  (newComparing, scheduled).

(** The predicate of [enrichedRepos.filter] in [performSearch]. *)
Definition keeps (filters : FilterOptions) (repo : Repository.t) : bool :=
  if (Repository.healthScore repo <? fst (healthRange filters))
     || (Repository.healthScore repo >? snd (healthRange filters))
  then false
  else if (minIssues filters >? 0)
          && (Repository.goodFirstIssues repo <? minIssues filters)
  then false
  else if hasCi filters
          && negb (match Repository.ciStatus repo with
                   | passing => true
                   | warning => false
                   end)
  then false
  else if hasDocs filters && negb (Repository.hasGoodDocs repo)
  then false
  else true.

(** The comparator of [sortedRepos]; [localeCompare] is the host's string
    collation. *)
Definition comparator (localeCompare : string -> string -> Z) (sortBy : string)
    (a b : Repository.t) : Z :=
  if String.eqb sortBy "health"
  then Repository.healthScore b - Repository.healthScore a
  else if String.eqb sortBy "stars"
  then Repository.stars b - Repository.stars a
  else if String.eqb sortBy "activity"
  then localeCompare (Repository.lastCommit a) (Repository.lastCommit b)
  else if String.eqb sortBy "issues"
  then Repository.goodFirstIssues b - Repository.goodFirstIssues a
  else 0.

(** [Array.prototype.sort] is stable: an element moves in front of the
    sorted rest only past elements that compare strictly before it. *)
Fixpoint insert {A} (cmp : A -> A -> Z) (x : A) (l : list A) : list A :=
  match l with
  | [] => [x]
  | y :: rest => if cmp x y <=? 0 then x :: l else y :: insert cmp x rest
  end.

Fixpoint sort {A} (cmp : A -> A -> Z) (l : list A) : list A :=
  match l with
  | [] => []
  | x :: rest => insert cmp x (sort cmp rest)
  end.

Definition sortedRepos (localeCompare : string -> string -> Z) (sortBy : string)
    (repositories : list Repository.t) : list Repository.t :=
  sort (comparator localeCompare sortBy) repositories.

(** The bookmarks, and the comparison selection, after a sequence of
    clicks on the page as first rendered. *)
Definition bookmarksAfter (clicks : list string) : list string :=
  fold_left (fun state repoId => handleBookmark repoId state) clicks [].

Definition comparingAfter (repositories : list Repository.t)
    (clicks : list string) : list string :=
  fold_left (fun state repoId => fst (handleCompare repositories repoId state))
            clicks [].

End SearchResultsPage.

(* ===================================================================== *)
(** ** The hosting API client: [github-api.ts] *)
(* ===================================================================== *)

Module GitHubApi.

(** *** The request of [searchRepositories] *)

Record SearchOptions := {
  query : string;
  language : option (list string);
  stars : option string;
  pushed : option string;
  created : option string;
  license : option string;
  goodFirstIssues : option bool;
  topics : option (list string);
  sort : option string;
  order : option string;
  perPage : option Z;
  page : option Z
}.

(** The object given to [URLSearchParams]. *)
Record SearchParams := {
  q : string;
  p_sort : string;
  p_order : string;
  per_page : string;
  p_page : string
}.

Definition nonempty_list {A} (l : option (list A)) : bool :=
  match l with
  | Some l => Z.of_nat (List.length l) >? 0
  | None => false
  end.

Definition list_or_empty {A} (l : option (list A)) : list A :=
  match l with Some l => l | None => [] end.

Definition string_or_empty (s : option string) : string :=
  match s with Some s => s | None => "" end.

Definition queryParts (options : SearchOptions) : list string :=
  let queryParts := [JS.or_string (Some (query options)) "stars:>1000"] in
  let queryParts :=
    if nonempty_list (language options) then
      let langQuery :=
        String.concat " " (map (fun lang => "language:" ++ lang)
                               (list_or_empty (language options))) in
      JS.push queryParts ("(" ++ langQuery ++ ")")
    else queryParts in
  let queryParts :=
    if JS.truthy_string (stars options)
    then JS.push queryParts ("stars:" ++ string_or_empty (stars options))
    else queryParts in
  let queryParts :=
    if JS.truthy_string (pushed options)
    then JS.push queryParts ("pushed:" ++ string_or_empty (pushed options))
    else queryParts in
  let queryParts :=
    if JS.truthy_string (created options)
    then JS.push queryParts ("created:" ++ string_or_empty (created options))
    else queryParts in
  let queryParts :=
    if JS.truthy_string (license options)
    then JS.push queryParts ("license:" ++ string_or_empty (license options))
    else queryParts in
  let queryParts :=
    if JS.truthy_bool (goodFirstIssues options)
    then JS.push queryParts "good-first-issues:>0"
    else queryParts in
  let queryParts :=
    if nonempty_list (topics options)
    then fold_left (fun parts topic => JS.push parts ("topic:" ++ topic))
                   (list_or_empty (topics options)) queryParts
    else queryParts in
  queryParts.

Definition searchParams (options : SearchOptions) : SearchParams :=
  let queryString := String.concat " " (queryParts options) in
  {| q := queryString;
     p_sort := JS.or_string (sort options) "stars";
     p_order := JS.or_string (order options) "desc";
     per_page := JS.String_of (JS.or_number (perPage options) 30);
     p_page := JS.String_of (JS.or_number (page options) 1) |}.

(** *** What a request brings back *)

Record Response := {
  ok : bool;
  statusText : string;
  link : option string
}.

(** [fetch] rejects, or a response arrives whose [json()] yields a body
    or rejects ([None]). *)
Inductive Fetched (Body : Type) :=
| Rejected
| Arrived (response : Response) (body : option Body).
Arguments Rejected {Body}.
Arguments Arrived {Body} response body.

(** *** The pattern [/page=(\d+)>; rel="last"/] *)

Definition quote : string := String (ascii_of_nat 34) "".
Definition last_marker : string := ">; rel=" ++ quote ++ "last" ++ quote.

Definition is_digit (c : ascii) : bool :=
  match c with
  | "0" | "1" | "2" | "3" | "4" | "5" | "6" | "7" | "8" | "9" => true
  | _ => false
  end%char.

(** The rest of [s] after the literal [lit], when [s] starts with it. *)
Fixpoint starts_with (lit s : string) : option string :=
  match lit with
  | EmptyString => Some s
  | String a lit' =>
      match s with
      | String b s' => if Ascii.eqb a b then starts_with lit' s' else None
      | EmptyString => None
      end
  end.

(** The longest run of digits at the start of [s], and the rest. *)
Fixpoint take_digits (s : string) : string * string :=
  match s with
  | String c r =>
      if is_digit c
      then let (ds, rest) := take_digits r in (String c ds, rest)
      else (EmptyString, s)
  | EmptyString => (EmptyString, EmptyString)
  end.

(** A match of the pattern at the start of [s]: its group 1.  The digits
    are followed by [>], so only the longest run can match. *)
Definition match_here (s : string) : option string :=
  match starts_with "page=" s with
  | None => None
  | Some r =>
      let (ds, rest) := take_digits r in
      match ds with
      | EmptyString => None
      | String _ _ =>
          match starts_with last_marker rest with
          | Some _ => Some ds
          | None => None
          end
      end
  end.

(** [linkHeader.match(/page=(\d+)>; rel="last"/)]: group 1 of the
    leftmost match. *)
Fixpoint match_last_page (linkHeader : string) : option string :=
  match match_here linkHeader with
  | Some ds => Some ds
  | None =>
      match linkHeader with
      | String _ r => match_last_page r
      | EmptyString => None
      end
  end.

(** [parseInt] of a string of decimal digits: its value. *)
Definition parseInt (digits : string) : JS.number :=
  option_map Z.of_uint (NilZero.uint_of_string digits).

(** *** The three lookups *)

(** The body of the contributors endpoint is an array. *)
Definition getRepositoryContributors {A} (outcome : Fetched (list A)) : JS.number :=
  match outcome with
  | Rejected => Some 0
  | Arrived response body =>
      if negb (ok response) then Some 0
      else
        let fromBody :=
          match body with
          | Some contributors => Some (Z.of_nat (List.length contributors))
          | None => Some 0
          end in
        if JS.truthy_string (link response) then
          match match_last_page (string_or_empty (link response)) with
          | Some group1 => parseInt group1
          | None => fromBody
          end
        else fromBody
  end.

(** The body of the two other endpoints is an object that may hold a
    [total_count]. *)
Record Counted := { total_count : option Z }.

Definition getGoodFirstIssues (outcome : Fetched Counted) : Z :=
  match outcome with
  | Rejected => 0
  | Arrived response body =>
      if negb (ok response) then 0
      else match body with
           | Some data => JS.or_number (total_count data) 0
           | None => 0
           end
  end.

Definition getRepositoryWorkflows (outcome : Fetched Counted) : bool :=
  match outcome with
  | Rejected => false
  | Arrived response body =>
      if negb (ok response) then false
      else match body with
           | Some data => JS.gt (total_count data) 0
           | None => false
           end
  end.

End GitHubApi.

(** The record [performSearch] hands to the transformer: the search item
    with the results of the three lookups. *)
Definition enriched {A} (item : GitHubRepoData)
    (contributorsLookup : GitHubApi.Fetched (list A))
    (issuesLookup workflowsLookup : GitHubApi.Fetched GitHubApi.Counted)
  : GitHubRepoData :=
  {| id := id item; name := name item; full_name := full_name item;
     description := description item;
     stargazers_count := stargazers_count item;
     language := language item; license := license item;
     open_issues_count := open_issues_count item;
     pushed_at := pushed_at item; created_at := created_at item;
     updated_at := updated_at item; topics := topics item;
     has_wiki := has_wiki item; has_pages := has_pages item;
     homepage := homepage item;
     contributors := GitHubApi.getRepositoryContributors contributorsLookup;
     goodFirstIssues := Some (GitHubApi.getGoodFirstIssues issuesLookup);
     hasCI := Some (GitHubApi.getRepositoryWorkflows workflowsLookup) |}.

(** Whether [lit] occurs in [s]. *)
Fixpoint occurs (lit s : string) : bool :=
  match GitHubApi.starts_with lit s with
  | Some _ => true
  | None =>
      match s with
      | String _ r => occurs lit r
      | EmptyString => false
      end
  end.

(** A lookup that failed: the request was rejected, or the response is
    not [ok]. *)
Definition failed {Body} (outcome : GitHubApi.Fetched Body) : bool :=
  match outcome with
  | GitHubApi.Rejected => true
  | GitHubApi.Arrived response _ => negb (GitHubApi.ok response)
  end.

(** Whether the character [c] occurs in [s]. *)
Fixpoint has_char (c : ascii) (s : string) : bool :=
  match s with
  | String a r => Ascii.eqb a c || has_char c r
  | EmptyString => false
  end.

(** Whether [s] consists of decimal digits. *)
Fixpoint all_digits (s : string) : bool :=
  match s with
  | String a r => GitHubApi.is_digit a && all_digits r
  | EmptyString => true
  end.

(** The search item before the three lookups. *)
Definition without_lookups (item : GitHubRepoData) : GitHubRepoData :=
  {| id := id item; name := name item; full_name := full_name item;
     description := description item;
     stargazers_count := stargazers_count item;
     language := language item; license := license item;
     open_issues_count := open_issues_count item;
     pushed_at := pushed_at item; created_at := created_at item;
     updated_at := updated_at item; topics := topics item;
     has_wiki := has_wiki item; has_pages := has_pages item;
     homepage := homepage item;
     contributors := None; goodFirstIssues := None; hasCI := None |}.

(** The [Link] header of the first of 4123 pages of one contributor. *)
Definition sample_link : string :=
  "<https://api.github.com/repositories/1/contributors?per_page=1&page=2>; rel="
  ++ GitHubApi.quote ++ "next" ++ GitHubApi.quote
  ++ ", <https://api.github.com/repositories/1/contributors?per_page=1&".

(* ===================================================================== *)
(** ** Arithmetic of the host functions *)
(* ===================================================================== *)

Lemma Qdiv_inject_Z (a b : Z) :
  0 < b -> (inject_Z a / inject_Z b == a # Z.to_pos b)%Q.
Proof.
  intros Hb. destruct b as [|p|p]; try lia.
  unfold Qdiv, Qinv, Qmult, inject_Z, Qeq. simpl. lia.
Qed.

Lemma floor_div (a b : Z) :
  0 < b -> Math.floor (inject_Z a / inject_Z b) = a / b.
Proof.
  intros Hb. unfold Math.floor.
  rewrite (Qfloor_comp _ _ (Qdiv_inject_Z a b Hb)).
  destruct b as [|p|p]; try lia. reflexivity.
Qed.

Lemma ceil_div (a b : Z) :
  0 < b -> Math.ceil (inject_Z a / inject_Z b) = - ((- a) / b).
Proof.
  intros Hb. unfold Math.ceil, Qceiling.
  rewrite (Qfloor_comp _ _ (Qopp_comp _ _ (Qdiv_inject_Z a b Hb))).
  destruct b as [|p|p]; try lia. reflexivity.
Qed.

Lemma round_div (a b : Z) :
  0 < b -> Math.round (inject_Z a / inject_Z b) = (2 * a + b) / (2 * b).
Proof.
  intros Hb. unfold Math.round.
  assert (E : (inject_Z a / inject_Z b + (1 # 2)
               == inject_Z (2 * a + b) / inject_Z (2 * b))%Q).
  { rewrite 2 Qdiv_inject_Z by lia.
    destruct b as [|p|p]; try lia.
    change (Z.to_pos (2 * Z.pos p)) with (p~0)%positive.
    unfold Qplus, Qeq. cbn [Qnum Qden Z.to_pos].
    rewrite !Pos2Z.inj_mul. change (Z.pos p~0) with (2 * Z.pos p). ring. }
  rewrite (Qfloor_comp _ _ E). apply floor_div. lia.
Qed.

Lemma getDaysSince_run (dateString : DateString) (w : Clock) :
  getDaysSince dateString w = (daysAt (w 0%nat) dateString, after 1 w).
Proof. reflexivity. Qed.

Lemma daysAt_Some (now t : Z) :
  daysAt now (Some t) = Some (- ((- Z.abs (now - t)) / Spec.msPerDay)).
Proof.
  unfold daysAt, run, getDaysSince, bind, now_getTime, ret, frozen. simpl.
  f_equal. change (1000 * 60 * 60 * 24) with Spec.msPerDay.
  apply ceil_div. reflexivity.
Qed.

Lemma daysAt_bounds (now t : Z) :
  exists d, daysAt now (Some t) = Some d
            /\ 0 <= d
            /\ (d - 1) * Spec.msPerDay < Z.abs (now - t) <= d * Spec.msPerDay.
Proof.
  rewrite daysAt_Some. eexists. split; [reflexivity|].
  unfold Spec.msPerDay.
  pose proof (Z.div_mod (- Z.abs (now - t)) 86400000 ltac:(lia)).
  pose proof (Z.mod_pos_bound (- Z.abs (now - t)) 86400000 ltac:(lia)).
  lia.
Qed.

(** A date exactly [n] days before the reading is [n] days old. *)
Lemma daysAt_whole (t n : Z) :
  daysAt t (Some (t - n * Spec.msPerDay)) = Some (Z.abs n).
Proof.
  rewrite daysAt_Some. f_equal.
  replace (t - (t - n * Spec.msPerDay)) with (n * Spec.msPerDay) by lia.
  rewrite Z.abs_mul, (Z.abs_eq Spec.msPerDay) by (unfold Spec.msPerDay; lia).
  rewrite <- Z.mul_opp_l, Z.div_mul by (unfold Spec.msPerDay; lia). lia.
Qed.

(* ===================================================================== *)
(** ** Binary64 rounding *)
(* ===================================================================== *)

(** The number of binary digits. *)
Lemma digits2_pos_size (p : positive) : digits2_pos p = Pos.size p.
Proof. induction p; simpl; congruence. Qed.

Lemma Zdigits2_bounds (p : positive) :
  2 ^ (Zdigits2 (Z.pos p) - 1) <= Z.pos p < 2 ^ Zdigits2 (Z.pos p).
Proof.
  unfold Zdigits2. rewrite digits2_pos_size.
  pose proof (Pos.size_gt p) as G. pose proof (Pos.size_le p) as L.
  apply Pos2Z.pos_lt_pos in G. apply Pos2Z.pos_le_pos in L.
  rewrite Pos2Z.inj_pow in G, L.
  change (Z.pos p~0) with (2 * Z.pos p) in L.
  replace (Z.pos (Pos.size p)) with (Z.succ (Z.pos (Pos.size p) - 1)) in L by lia.
  rewrite Z.pow_succ_r in L by lia. lia.
Qed.

Lemma Zdigits2_unique (n d : Z) :
  2 ^ (d - 1) <= n < 2 ^ d -> 0 < d -> Zdigits2 n = d.
Proof.
  intros H Hd. assert (0 < n) by (pose proof (Z.pow_pos_nonneg 2 (d - 1)); lia).
  destruct n as [|p|p]; try lia.
  pose proof (Zdigits2_bounds p) as B.
  set (e := Zdigits2 (Z.pos p)) in *.
  assert (0 < e) by (subst e; simpl; lia).
  destruct (Z.lt_trichotomy e d) as [L|[E|G]]; [|exact E|].
  - assert (2 ^ e <= 2 ^ (d - 1)) by (apply Z.pow_le_mono_r; lia). lia.
  - assert (2 ^ d <= 2 ^ (e - 1)) by (apply Z.pow_le_mono_r; lia). lia.
Qed.

(** Right shifts. *)
Lemma iter_pos_iter {A} (f : A -> A) (p : positive) (x : A) :
  iter_pos f p x = Pos.iter f x p.
Proof.
  revert x. induction p as [p IH|p IH|]; intros x; simpl.
  - rewrite !IH. rewrite <- Pos.iter_swap. rewrite <- Pos.iter_swap. reflexivity.
  - rewrite !IH. reflexivity.
  - reflexivity.
Qed.

Lemma shr_1_nonneg (m : Z) (r s : bool) :
  0 <= m ->
  shr_1 (Build_shr_record m r s) = Build_shr_record (m / 2) (Z.odd m) (r || s).
Proof.
  intros Hm. destruct m as [|p|p]; try lia.
  - reflexivity.
  - rewrite <- Z.div2_div. destruct p; reflexivity.
Qed.


Lemma shifted_succ (m n : Z) :
  0 <= m -> 1 <= n -> shr_1 (shifted m n) = shifted m (Z.succ n).
Proof.
  intros Hm Hn. unfold shifted.
  rewrite shr_1_nonneg by (apply Z.div_pos; [lia | apply Z.pow_pos_nonneg; lia]).
  replace (Z.succ n - 1) with n by lia.
  f_equal.
  - rewrite Z.pow_succ_r, Z.div_div by (try apply Z.pow_pos_nonneg; lia).
    f_equal. lia.
  - replace n with (Z.succ (n - 1)) at 3 by lia.
    rewrite Z.pow_succ_r by lia.
    rewrite (Z.mul_comm 2), Z.rem_mul_r
      by (try (apply Z.pow_nonzero; lia); lia).
    set (a := m mod 2 ^ (n - 1)). set (b := m / 2 ^ (n - 1)).
    assert (Ha : 0 <= a) by (apply Z.mod_pos_bound, Z.pow_pos_nonneg; lia).
    assert (Hp : 0 < 2 ^ (n - 1)) by (apply Z.pow_pos_nonneg; lia).
    rewrite Zmod_odd.
    destruct (Z.odd b), (Z.eqb_spec a 0); simpl; symmetry;
      first [ apply negb_true_iff, Z.eqb_neq; lia
            | apply negb_false_iff, Z.eqb_eq; lia ].
Qed.

Lemma shr_exact (m e : Z) (n : positive) :
  0 <= m ->
  shr (Build_shr_record m false false) e (Z.pos n)
  = (shifted m (Z.pos n), e + Z.pos n).
Proof.
  intros Hm. unfold shr. f_equal. rewrite iter_pos_iter.
  induction n as [|n IH] using Pos.peano_ind.
  - cbn [Pos.iter]. rewrite shr_1_nonneg by assumption. unfold shifted.
    change (1 - 1) with 0. rewrite Z.pow_0_r, Z.pow_1_r, Z.div_1_r, Z.mod_1_r.
    reflexivity.
  - rewrite Pos.iter_succ, IH, Pos2Z.inj_succ. apply shifted_succ; lia.
Qed.


Lemma round_shifted (m n : Z) :
  0 <= m -> 1 <= n ->
  round_nearest_even (shr_m (shifted m n)) (loc_of_shr_record (shifted m n))
  = nearest_even m n.
Proof.
  intros Hm Hn. unfold shifted, nearest_even. cbn [shr_m loc_of_shr_record].
  assert (Hp : 0 < 2 ^ (n - 1)) by (apply Z.pow_pos_nonneg; lia).
  assert (E : 2 ^ n = 2 ^ (n - 1) * 2).
  { replace n with (Z.succ (n - 1)) at 1 by lia. rewrite Z.pow_succ_r; lia. }
  rewrite E at 2 3. rewrite Z.rem_mul_r by lia.
  set (a := m mod 2 ^ (n - 1)). set (b := m / 2 ^ (n - 1)).
  assert (Ha : 0 <= a < 2 ^ (n - 1)) by (apply Z.mod_pos_bound; lia).
  rewrite Zmod_odd.
  destruct (Z.odd b), (Z.eqb_spec a 0); simpl negb; cbn [round_nearest_even].
  - replace (2 * (a + 2 ^ (n - 1) * 1) ?= 2 ^ (n - 1) * 2) with Eq; [reflexivity|].
    symmetry. apply Z.compare_eq_iff. lia.
  - replace (2 * (a + 2 ^ (n - 1) * 1) ?= 2 ^ (n - 1) * 2) with Gt; [reflexivity|].
    symmetry. apply Z.compare_gt_iff. lia.
  - replace (2 * (a + 2 ^ (n - 1) * 0) ?= 2 ^ (n - 1) * 2) with Lt; [reflexivity|].
    symmetry. apply Z.compare_lt_iff. lia.
  - replace (2 * (a + 2 ^ (n - 1) * 0) ?= 2 ^ (n - 1) * 2) with Lt; [reflexivity|].
    symmetry. apply Z.compare_lt_iff. lia.
Qed.

Lemma nearest_even_bounds (m n : Z) :
  0 <= m -> 0 <= n ->
  let q := nearest_even m n in
  (2 * q - 1) * 2 ^ n <= 2 * m <= (2 * q + 1) * 2 ^ n.
Proof.
  intros Hm Hn q. subst q. unfold nearest_even.
  assert (Hp : 0 < 2 ^ n) by (apply Z.pow_pos_nonneg; lia).
  pose proof (Z.div_mod m (2 ^ n) ltac:(lia)) as D.
  pose proof (Z.mod_pos_bound m (2 ^ n) Hp) as B.
  set (q := m / 2 ^ n) in *. set (r := m mod 2 ^ n) in *.
  destruct (Z.compare_spec (2 * r) (2 ^ n)); [destruct (Z.even q)| |]; nia.
Qed.


(** Rounding a mantissa that already has 53 digits changes nothing. *)
Lemma binary_round_aux_exact (s : bool) (n : positive) (e : Z) :
  Zdigits2 (Z.pos n) = 53 ->
  -1074 <= e <= 971 ->
  binary_round_aux JS.prec JS.emax s (Z.pos n) e loc_Exact = S754_finite s n e.
Proof.
  intros D He. unfold binary_round_aux, shr_fexp.
  cbn [shr_record_of_loc]. rewrite D.
  assert (F : fexp JS.prec JS.emax (53 + e) - e = 0)
    by (unfold fexp, emin, JS.prec, JS.emax; lia).
  rewrite F. cbn [shr shr_m loc_of_shr_record round_nearest_even shr_record_of_loc].
  rewrite D, F. cbn [shr shr_m].
  replace (e <=? JS.emax - JS.prec) with true
    by (symmetry; apply Z.leb_le; unfold JS.emax, JS.prec; lia).
  reflexivity.
Qed.

(** Rounding a longer mantissa, in the normal range. *)
Lemma binary_round_aux_normal (n : positive) (e : Z) :
  let N := Z.pos n in
  let k := Zdigits2 N - 53 in
  let q := nearest_even N k in
  1 <= k ->
  -1074 <= e + k ->
  e + k + 1 <= 971 ->
  2 ^ 52 <= q <= 2 ^ 53
  /\ binary_round_aux JS.prec JS.emax false N e loc_Exact
     = if q <? 2 ^ 53
       then S754_finite false (Z.to_pos q) (e + k)
       else S754_finite false (Z.to_pos (2 ^ 52)) (e + k + 1).
Proof.
  intros N k q Hk Hlo Hhi.
  pose proof (Zdigits2_bounds n) as B. fold N in B.
  assert (Ed : Zdigits2 N = k + 53) by (subst k; lia).
  rewrite Ed in B.
  replace (k + 53 - 1) with (k + 52) in B by lia.
  rewrite !Z.pow_add_r in B by lia.
  assert (Pk : 0 < 2 ^ k) by (apply Z.pow_pos_nonneg; lia).
  pose proof (nearest_even_bounds N k ltac:(subst N; lia) ltac:(lia)) as Q.
  cbv zeta in Q. fold q in Q.
  assert (Hq : 2 ^ 52 <= q <= 2 ^ 53).
  { change (2 ^ 52) with 4503599627370496 in *.
    change (2 ^ 53) with 9007199254740992 in *. nia. }
  split; [exact Hq|].
  unfold binary_round_aux, shr_fexp. cbn [shr_record_of_loc].
  assert (F : fexp JS.prec JS.emax (Zdigits2 N + e) - e = k).
  { rewrite Ed. unfold fexp, emin, JS.prec, JS.emax. lia. }
  rewrite F. destruct k as [|kp|kp] eqn:Ek; try lia.
  rewrite shr_exact by (subst N; lia).
  rewrite round_shifted by (subst N; lia).
  fold q.
  destruct (Z.ltb_spec q (2 ^ 53)) as [L|G].
  - assert (Dq : Zdigits2 q = 53)
      by (apply Zdigits2_unique; [change (53 - 1) with 52|]; lia).
    rewrite Dq.
    assert (F' : fexp JS.prec JS.emax (53 + (e + Z.pos kp)) - (e + Z.pos kp) = 0)
      by (unfold fexp, emin, JS.prec, JS.emax; lia).
    rewrite F'. cbn [shr shr_m].
    destruct q as [|qp|qp] eqn:Eq; try (change (2 ^ 52) with 4503599627370496 in *; lia).
    replace (e + Z.pos kp <=? JS.emax - JS.prec) with true
      by (symmetry; apply Z.leb_le; unfold JS.emax, JS.prec; lia).
    reflexivity.
  - assert (Eq : q = 2 ^ 53) by lia. rewrite Eq.
    change (Zdigits2 (2 ^ 53)) with 54.
    assert (F' : fexp JS.prec JS.emax (54 + (e + Z.pos kp)) - (e + Z.pos kp) = 1)
      by (unfold fexp, emin, JS.prec, JS.emax; lia).
    rewrite F'. cbn [shr_record_of_loc].
    rewrite shr_exact by (change (2 ^ 53) with 9007199254740992; lia).
    change (shr_m (shifted (2 ^ 53) 1)) with (2 ^ 52).
    change (2 ^ 52) with (Z.pos (Z.to_pos (2 ^ 52))) at 1. cbv iota.
    replace (e + Z.pos kp + 1 <=? JS.emax - JS.prec) with true
      by (symmetry; apply Z.leb_le; unfold JS.emax, JS.prec; lia).
    reflexivity.
Qed.

(** The floor of a rounded value below [2^53]. *)
Lemma floor_binary_round_aux (n : positive) (e : Z) :
  let N := Z.pos n in
  let k := Zdigits2 N - 53 in
  1 <= k ->
  -1074 <= e + k ->
  e + k < 0 ->
  Math.floor_double (binary_round_aux JS.prec JS.emax false N e loc_Exact)
  = Some (nearest_even N k / 2 ^ (- (e + k))).
Proof.
  intros N k Hk Hlo Hhi.
  assert (Hhi' : e + k + 1 <= 971) by lia.
  destruct (binary_round_aux_normal n e Hk Hlo Hhi') as [Hq E].
  fold N k in Hq, E. rewrite E. clear E.
  set (q := nearest_even N k) in *.
  destruct (Z.ltb_spec q (2 ^ 53)) as [L|G]; unfold Math.floor_double.
  - rewrite Z2Pos.id by (change (2 ^ 52) with 4503599627370496 in *; lia).
    replace (0 <=? e + k) with false by (symmetry; apply Z.leb_gt; lia).
    reflexivity.
  - assert (Eq : q = 2 ^ 53) by lia. rewrite Eq.
    rewrite Z2Pos.id by reflexivity.
    f_equal. destruct (Z.leb_spec 0 (e + k + 1)) as [Z0|Z0].
    + assert (E1 : e + k = -1) by lia. rewrite E1. reflexivity.
    + replace (- (e + k)) with (Z.succ (- (e + k + 1))) by lia.
      rewrite Z.pow_succ_r by lia.
      rewrite <- Z.div_div by (try apply Z.pow_pos_nonneg; lia).
      reflexivity.
Qed.

Lemma iter_xO (p d : positive) :
  Z.pos (Pos.iter xO p d) = Z.pos p * 2 ^ Z.pos d.
Proof.
  induction d as [|d IH] using Pos.peano_ind.
  - cbn [Pos.iter]. rewrite Z.pow_1_r. lia.
  - rewrite Pos.iter_succ, Pos2Z.inj_succ, Z.pow_succ_r, Pos2Z.inj_xO, IH by lia.
    ring.
Qed.

(** An integer below [2^53] converts exactly, to a mantissa of 53 digits. *)
Lemma Number_of_Z_normal (c : Z) :
  0 < c < 2 ^ 53 ->
  exists (mz : positive) (j : Z),
    JS.Number_of_Z c = S754_finite false mz (- j)
    /\ Z.pos mz = c * 2 ^ j
    /\ 0 <= j <= 52
    /\ j = 53 - Zdigits2 c
    /\ 2 ^ 52 <= Z.pos mz < 2 ^ 53.
Proof.
  intros Hc. destruct c as [|p|p]; try lia.
  pose proof (Zdigits2_bounds p) as B.
  set (d := Zdigits2 (Z.pos p)) in *.
  assert (Hd : 1 <= d <= 53).
  { split; [subst d; simpl; lia|].
    destruct (Z.le_gt_cases d 53) as [L|G]; [exact L|].
    assert (2 ^ 53 <= 2 ^ (d - 1)) by (apply Z.pow_le_mono_r; lia). lia. }
  assert (Hm : 2 ^ 52 <= Z.pos p * 2 ^ (53 - d) < 2 ^ 53).
  { assert (E52 : 2 ^ 52 = 2 ^ (d - 1) * 2 ^ (53 - d))
      by (rewrite <- Z.pow_add_r by lia; f_equal; lia).
    assert (E53 : 2 ^ 53 = 2 ^ d * 2 ^ (53 - d))
      by (rewrite <- Z.pow_add_r by lia; f_equal; lia).
    rewrite E52, E53.
    assert (0 < 2 ^ (53 - d)) by (apply Z.pow_pos_nonneg; lia). nia. }
  unfold JS.Number_of_Z, binary_normalize, binary_round, shl_align.
  change (Z.pos (digits2_pos p)) with d.
  assert (F : fexp JS.prec JS.emax (d + 0) = - (53 - d))
    by (unfold fexp, emin, JS.prec, JS.emax; lia).
  rewrite F, Z.sub_0_r.
  destruct (53 - d) as [|jp|jp] eqn:Ej; try lia.
  - exists p, 0. cbn [Z.opp]. rewrite Z.pow_0_r, Z.mul_1_r in *.
    rewrite binary_round_aux_exact; [|lia|lia].
    repeat split; try reflexivity; lia.
  - exists (Pos.iter xO p jp), (Z.pos jp). cbn [Z.opp].
    pose proof (iter_xO p jp) as I.
    rewrite binary_round_aux_exact.
    + repeat split; try reflexivity; lia.
    + apply Zdigits2_unique; [change (53 - 1) with 52|]; lia.
    + lia.
Qed.

Lemma floor_mul_0_3 (c : Z) :
  0 <= c < 2 ^ 52 ->
  Math.floor_double (JS.mul (JS.Number_of_Z c) JS.lit_0_3) = Some (3 * c / 10).
Proof.
  intros Hc. destruct (Z.eq_dec c 0) as [->|Hz]; [reflexivity|].
  destruct (Number_of_Z_normal c) as (mz & j & E & Ez & Hj & Dj & Bz);
    [change (2 ^ 52) with 4503599627370496 in Hc;
     change (2 ^ 53) with 9007199254740992; lia|].
  assert (J1 : 1 <= j).
  { destruct (Z.le_gt_cases 1 j) as [L|G]; [exact L|]. exfalso.
    assert (J0 : j = 0) by lia. rewrite J0 in Ez. change (2 ^ 0) with 1 in Ez.
    change (2 ^ 52) with 4503599627370496 in Hc, Bz. lia. }
  rewrite E. unfold JS.mul, JS.lit_0_3, SFmul. cbn [xorb].
  set (M := 5404319552844595%positive).
  pose proof (Zdigits2_bounds (mz * M)) as B.
  pose proof (floor_binary_round_aux (mz * M) (- j + -54)) as FL.
  cbv zeta in FL.
  set (N := Z.pos (mz * M)) in *.
  assert (EN : N = Z.pos mz * 5404319552844595) by (subst N M; lia).
  set (d := Zdigits2 N) in *.
  change (2 ^ 52) with 4503599627370496 in Bz.
  change (2 ^ 53) with 9007199254740992 in Bz.
  assert (Hd : d = 105 \/ d = 106).
  { destruct (Z.le_gt_cases d 104) as [L|G].
    - assert (2 ^ d <= 2 ^ 104)
        by (apply Z.pow_le_mono_r; [lia | exact L]).
      change (2 ^ 104) with 20282409603651670423947251286016 in *. nia.
    - destruct (Z.le_gt_cases 107 d) as [L'|G']; [|lia].
      assert (2 ^ 106 <= 2 ^ (d - 1)) by (apply Z.pow_le_mono_r; lia).
      change (2 ^ 106) with 81129638414606681695789005144064 in *. nia. }
  rewrite FL by lia. clear FL.
  f_equal.
  pose proof (nearest_even_bounds N (d - 53) ltac:(lia) ltac:(lia)) as Q.
  cbv zeta in Q. set (q := nearest_even N (d - 53)) in *.
  set (t := 2 ^ j) in *.
  assert (Ht : 2 <= t).
  { subst t. change 2 with (2 ^ 1) at 1. apply Z.pow_le_mono_r; lia. }
  pose proof (Z.div_mod (3 * c) 10 ltac:(lia)) as Dm.
  pose proof (Z.mod_pos_bound (3 * c) 10 ltac:(lia)) as Bm.
  set (m := 3 * c / 10) in *. set (rho := (3 * c) mod 10) in *.
  assert (Hm0 : 0 <= m) by lia.
  set (y := m * t).
  assert (Y : 10 * y <= 3 * Z.pos mz <= 10 * y + 9 * t) by (subst y; nia).
  symmetry.
  destruct Hd as [D|D]; rewrite D in *.
  - change (105 - 53) with 52 in *.
    replace (- (- j + -54 + 52)) with (j + 2) by lia.
    rewrite Z.pow_add_r by lia. fold t. change (2 ^ 2) with 4.
    change (2 ^ 52) with 4503599627370496 in Q.
    apply Z.div_unique with (r := q - 4 * y); subst y; lia.
  - change (106 - 53) with 53 in *.
    replace (- (- j + -54 + 53)) with (j + 1) by lia.
    rewrite Z.pow_add_r by lia. fold t. change (2 ^ 1) with 2.
    change (2 ^ 53) with 9007199254740992 in Q.
    apply Z.div_unique with (r := q - 2 * y); subst y; lia.
Qed.

Lemma floor_mul_0_5 (c : Z) :
  0 <= c < 2 ^ 53 ->
  Math.floor_double (JS.mul (JS.Number_of_Z c) JS.lit_0_5) = Some (c / 2).
Proof.
  intros Hc. destruct (Z.eq_dec c 0) as [->|Hz]; [reflexivity|].
  destruct (Number_of_Z_normal c) as (mz & j & E & Ez & Hj & Dj & Bz); [lia|].
  rewrite E. unfold JS.mul, JS.lit_0_5, SFmul. cbn [xorb].
  pose proof (floor_binary_round_aux (mz * 4503599627370496) (- j + -53)) as FL.
  cbv zeta in FL.
  set (N := Z.pos (mz * 4503599627370496)) in *.
  assert (EN : N = Z.pos mz * 2 ^ 52)
    by (subst N; change (2 ^ 52) with 4503599627370496; lia).
  change (2 ^ 52) with 4503599627370496 in Bz, EN.
  change (2 ^ 53) with 9007199254740992 in Bz.
  assert (D : Zdigits2 N = 105).
  { apply Zdigits2_unique; [|lia].
    change (2 ^ (105 - 1)) with 20282409603651670423947251286016.
    change (2 ^ 105) with 40564819207303340847894502572032. lia. }
  rewrite D in FL. rewrite FL by lia. clear FL.
  f_equal. change (105 - 53) with 52.
  pose proof (nearest_even_bounds N 52 ltac:(lia) ltac:(lia)) as Q.
  cbv zeta in Q. set (q := nearest_even N 52) in *.
  change (2 ^ 52) with 4503599627370496 in Q.
  assert (Eq : q = Z.pos mz) by lia.
  rewrite Eq, Ez.
  replace (- (- j + -53 + 52)) with (j + 1) by lia.
  rewrite Z.pow_add_r by lia. change (2 ^ 1) with 2.
  rewrite (Z.mul_comm (2 ^ j) 2).
  apply Z.div_mul_cancel_r; [lia|]. apply Z.pow_nonzero; lia.
Qed.

(* ===================================================================== *)
(** ** Running the clock-reading functions *)
(* ===================================================================== *)

Lemma calculateActivityScore_run (pushedAt : DateString) (w : Clock) :
  calculateActivityScore pushedAt w
  = (Spec.first_at_most Spec.activity_table 30 (daysAt (w 0%nat) pushedAt),
     after 1 w).
Proof. reflexivity. Qed.

Lemma calculateFreshnessScore_run (createdAt pushedAt : DateString) (w : Clock) :
  calculateFreshnessScore createdAt pushedAt w
  = (Spec.freshness_policy (daysAt (w 0%nat) createdAt) (daysAt (w 1%nat) pushedAt),
     after 2 w).
Proof. reflexivity. Qed.

Lemma calculateHealthScore_run (repo : GitHubRepoData) (w : Clock) :
  calculateHealthScore repo w
  = (Math.round (Spec.mean (subscores repo w)), after 3 w).
Proof. reflexivity. Qed.

Lemma transform_breakdown (repo : GitHubRepoData) (w : Clock) :
  Repository.healthBreakdown (run (transformGitHubRepoToRepository repo) w)
  = subscores repo (after 3 w).
Proof. reflexivity. Qed.

Lemma transform_healthScore (repo : GitHubRepoData) (w : Clock) :
  Repository.healthScore (run (transformGitHubRepoToRepository repo) w)
  = Math.round (Spec.mean (subscores repo w)).
Proof. reflexivity. Qed.

Lemma after_frozen (n : nat) (t : Z) : after n (frozen t) = frozen t.
Proof. reflexivity. Qed.

(** The text of [getTimeAgo] for a date the clock finds [d] days away. *)
Lemma getTimeAgo_days (t : Z) (w : Clock) (d : Z) :
  daysAt (w 0%nat) (Some t) = Some d ->
  0 <= d ->
  run (getTimeAgo (Some t)) w = Spec.timeAgo d.
Proof.
  intros E Hd. unfold run, getTimeAgo, bind. rewrite getDaysSince_run, E.
  cbn [fst ret option_map JS.strict_eq JS.lt JS.interpolate].
  rewrite !floor_div by lia.
  unfold Spec.timeAgo, Spec.counted.
  destruct (Z.eqb_spec d 0); [reflexivity|].
  destruct (Z.eqb_spec d 1); [reflexivity|].
  destruct (Z.ltb_spec d 7).
  { replace ((2 <=? d) && (d <=? 6)) with true; [reflexivity|].
    symmetry. apply andb_true_iff. split; apply Z.leb_le; lia. }
  replace ((2 <=? d) && (d <=? 6)) with false
    by (symmetry; apply andb_false_iff; right; apply Z.leb_gt; lia).
  destruct (Z.ltb_spec d 30).
  { replace ((7 <=? d) && (d <=? 29)) with true
      by (symmetry; apply andb_true_iff; split; apply Z.leb_le; lia).
    destruct (d / 7 =? 1); reflexivity. }
  replace ((7 <=? d) && (d <=? 29)) with false
    by (symmetry; apply andb_false_iff; right; apply Z.leb_gt; lia).
  destruct (Z.ltb_spec d 365).
  { replace ((30 <=? d) && (d <=? 364)) with true
      by (symmetry; apply andb_true_iff; split; apply Z.leb_le; lia).
    destruct (d / 30 =? 1); reflexivity. }
  replace ((30 <=? d) && (d <=? 364)) with false
    by (symmetry; apply andb_false_iff; right; apply Z.leb_gt; lia).
  replace (365 <=? d) with true by (symmetry; apply Z.leb_le; lia).
  destruct (d / 365 =? 1); reflexivity.
Qed.

(** The fields of the display record, as functions of the input and of
    the clock readings that decide them. *)
Lemma transform_signals (repo : GitHubRepoData) (w : Clock) :
  Repository.signals (run (transformGitHubRepoToRepository repo) w)
  = Spec.labels_that_hold (signal_conditions repo w).
Proof.
  transitivity
    (let signals : list string := [] in
     let signals :=
       if JS.le (daysAt (w 6%nat) (pushed_at repo)) 7
       then JS.push signals "Active" else signals in
     let signals :=
       if has_wiki repo || has_pages repo || JS.truthy_string (homepage repo)
       then JS.push signals "Good Docs" else signals in
     let signals :=
       if match goodFirstIssues repo with
          | Some g => negb (g =? 0) && (g >? 0)
          | None => false
          end
       then JS.push signals "Beginner Friendly" else signals in
     let signals :=
       if stargazers_count repo >=? 10000
       then JS.push signals "Large Community" else signals in
     if JS.lt (daysAt (w 7%nat) (created_at repo)) 730
     then JS.push signals "Modern" else signals);
    [reflexivity|].
  unfold signal_conditions. cbv zeta.
  replace (match goodFirstIssues repo with
           | Some g => negb (g =? 0) && (g >? 0)
           | None => false
           end) with (positive_count (goodFirstIssues repo)).
  2:{ unfold positive_count. destruct (goodFirstIssues repo) as [g|]; [|reflexivity].
      rewrite Z.gtb_ltb. destruct (Z.ltb_spec 0 g), (Z.eqb_spec g 0); simpl; lia. }
  rewrite Z.geb_leb.
  destruct (JS.le _ 7), (has_wiki repo || has_pages repo || _),
    (positive_count _), (10000 <=? _), (JS.lt _ 730); reflexivity.
Qed.

Lemma transform_trend (repo : GitHubRepoData) (w : Clock) :
  Repository.trend (run (transformGitHubRepoToRepository repo) w)
  = let daysSinceLastPush := daysAt (w 6%nat) (pushed_at repo) in
    if JS.le daysSinceLastPush 7 then up
    else if JS.gt daysSinceLastPush 90 then down
    else stable.
Proof. reflexivity. Qed.

Lemma transform_display (repo : GitHubRepoData) (w : Clock) :
  let r := run (transformGitHubRepoToRepository repo) w in
  let c := JS.or_number (contributors repo) 0 in
  Repository.contributors r = c
  /\ Repository.activeContributors r
     = Math.floor_double (JS.mul (JS.Number_of_Z c) JS.lit_0_3)
  /\ Repository.contributorDiversity r
     = Math.floor_double (JS.mul (JS.Number_of_Z c) JS.lit_0_5)
  /\ Repository.license r
     = JS.or_string (option_map license_name (license repo)) "No License"
  /\ Repository.description r = JS.or_string (description repo) "No description available"
  /\ Repository.ciStatus r = (if JS.truthy_bool (hasCI repo) then passing else warning).
Proof. cbv zeta. repeat split; reflexivity. Qed.

Lemma transform_constants (repo : GitHubRepoData) (w : Clock) :
  let r := run (transformGitHubRepoToRepository repo) w in
  Repository.avgIssueResponseTime r = "< 2 days"
  /\ Repository.prMergeRate r = 75
  /\ Repository.codeCoverage r = 80.
Proof. cbv zeta. repeat split; reflexivity. Qed.

(* ===================================================================== *)
(** ** Bounds of the sub-scores *)
(* ===================================================================== *)

Lemma first_at_most_activity_bounds (d : JS.number) :
  30 <= Spec.first_at_most Spec.activity_table 30 d <= 95.
Proof.
  unfold Spec.activity_table, Spec.first_at_most.
  repeat match goal with |- context [JS.le d ?k] => destruct (JS.le d k) end; lia.
Qed.

Lemma freshness_policy_bounds (dc dp : JS.number) :
  35 <= Spec.freshness_policy dc dp <= 95.
Proof.
  unfold Spec.freshness_policy, Spec.young_table, Spec.mature_table, Spec.first_at_most.
  destruct (JS.lt dc 365);
    repeat match goal with |- context [JS.le dp ?k] => destruct (JS.le dp k) end; lia.
Qed.

Lemma community_bounds (stars contributors : Z) :
  25 <= calculateCommunityScore stars contributors <= 100.
Proof.
  unfold calculateCommunityScore, Math.min.
  repeat match goal with |- context [?a >=? ?k] => destruct (a >=? k) end; simpl; lia.
Qed.

Lemma documentation_bounds d hw hp h :
  0 <= calculateDocumentationScore d hw hp h <= 100.
Proof.
  unfold calculateDocumentationScore.
  repeat match goal with |- context [if ?c then _ else _] => destruct c end; lia.
Qed.

Lemma compatibility_bounds l ci t :
  0 <= calculateCompatibilityScore l ci t <= 100.
Proof.
  unfold calculateCompatibilityScore. destruct l;
  repeat match goal with |- context [if ?c then _ else _] => destruct c end; lia.
Qed.

Lemma round_spec (q : Q) : Spec.rounds_half_up_to q (Math.round q).
Proof.
  unfold Spec.rounds_half_up_to, Math.round.
  pose proof (Qfloor_le (q + (1 # 2))) as Hlo.
  pose proof (Qlt_floor (q + (1 # 2))) as Hhi.
  rewrite inject_Z_plus in Hhi. change (inject_Z 1) with 1%Q in Hhi.
  split; lra.
Qed.

Lemma rounds_half_up_unique (q : Q) (h h' : Z) :
  Spec.rounds_half_up_to q h -> Spec.rounds_half_up_to q h' -> h = h'.
Proof.
  unfold Spec.rounds_half_up_to. intros [A B] [C D].
  assert (inject_Z h < inject_Z h' + 1)%Q as E by lra.
  assert (inject_Z h' < inject_Z h + 1)%Q as F by lra.
  change 1%Q with (inject_Z 1) in E, F. rewrite <- inject_Z_plus in E, F.
  rewrite <- Zlt_Qlt in E, F. lia.
Qed.

Lemma round_mean (b : HealthBreakdown) :
  Math.round (Spec.mean b)
  = (2 * (activity b + community b + documentation b + freshness b
          + compatibility b) + 5) / 10.
Proof. unfold Spec.mean. rewrite round_div by lia. reflexivity. Qed.

(* ===================================================================== *)
(** ** Exact products *)
(* ===================================================================== *)

Lemma floor_three_tenths (c : Z) : Math.floor ((3 # 10) * inject_Z c) = 3 * c / 10.
Proof. reflexivity. Qed.

Lemma floor_half (c : Z) : Math.floor ((1 # 2) * inject_Z c) = c / 2.
Proof.
  unfold Math.floor, Qmult, inject_Z, Qfloor. cbn [Qnum Qden].
  f_equal. destruct c; reflexivity.
Qed.

#[local] Set Warnings "-inexact-float".

(** The model of the two literals and of the product agrees with the
    kernel's binary64 arithmetic. *)
Example lit_0_3_is_the_literal : Prim2SF 0.3%float = JS.lit_0_3.
Proof. reflexivity. Qed.

Example lit_0_5_is_the_literal : Prim2SF 0.5%float = JS.lit_0_5.
Proof. reflexivity. Qed.

Example product_as_the_kernel_computes_it :
  Prim2SF (8000000000000003 * 0.3)%float
  = JS.mul (JS.Number_of_Z 8000000000000003) JS.lit_0_3
  /\ Prim2SF (700 * 0.3)%float = JS.mul (JS.Number_of_Z 700) JS.lit_0_3
  /\ Prim2SF (10 * 0.3)%float = JS.mul (JS.Number_of_Z 10) JS.lit_0_3.
Proof. repeat split; vm_compute; reflexivity. Qed.

(* ===================================================================== *)
(** ** C1: the health score is the rounded mean *)
(* ===================================================================== *)

(** C1 (as amended).  [calculateHealthScore] returns the mean of the five
    sub-scores it computes during the call (their sum divided by 5),
    rounded to the nearest integer, a half rounding up.  The transformer
    computes its [healthBreakdown] afterwards, with clock readings of its
    own: when the clock stands still during the call, its [healthScore]
    is the rounded mean of its own [healthBreakdown]. *)
Theorem C1_health_score_is_rounded_mean :
  (forall repo w,
      Spec.rounds_half_up_to (Spec.mean (subscores repo w))
                             (run (calculateHealthScore repo) w))
  /\ (forall repo w,
         Repository.healthScore (run (transformGitHubRepoToRepository repo) w)
         = run (calculateHealthScore repo) w)
  /\ (forall repo now,
         let r := run (transformGitHubRepoToRepository repo) (frozen now) in
         Spec.rounds_half_up_to (Spec.mean (Repository.healthBreakdown r))
                                (Repository.healthScore r)).
Proof.
  split; [|split].
  - intros repo w. unfold run. rewrite calculateHealthScore_run. apply round_spec.
  - reflexivity.
  - intros repo now r. subst r.
    rewrite transform_breakdown, transform_healthScore, after_frozen.
    apply round_spec.
Qed.

(** C1 (as stated) fails when the clock advances between the call of
    [calculateHealthScore] and the computation of the breakdown: the push
    is 7 days old at the first reading (activity 95, score 41) and 8 days
    old three milliseconds later (activity 90, breakdown mean 40). *)
Lemma C1_breakdown_can_disagree :
  let r := run (transformGitHubRepoToRepository week_old_push)
               (ticking (1007 * Spec.msPerDay)) in
  Repository.healthScore r = 41
  /\ activity (Repository.healthBreakdown r) = 90
  /\ Math.round (Spec.mean (Repository.healthBreakdown r)) = 40
  /\ ~ Spec.rounds_half_up_to (Spec.mean (Repository.healthBreakdown r))
                               (Repository.healthScore r).
Proof.
  cbv zeta. split; [|split; [|split]]; try (vm_compute; reflexivity).
  intros H.
  pose proof (rounds_half_up_unique _ _ _ H (round_spec _)) as E.
  vm_compute in E. discriminate E.
Qed.

(* ===================================================================== *)
(** ** C2: the community sub-score *)
(* ===================================================================== *)

(** C2.  The community sub-score is the stars bucket plus the contributors
    bucket, capped at 100; the sum never exceeds 100, so the cap changes
    nothing; 50000 stars and 500 contributors give exactly 100. *)
Theorem C2_community_score :
  (forall stars contributors,
      let sum := Spec.first_at_least Spec.stars_table 15 stars
                 + Spec.first_at_least Spec.contributors_table 10 contributors in
      calculateCommunityScore stars contributors = Z.min 100 sum
      /\ sum <= 100
      /\ calculateCommunityScore stars contributors = sum)
  /\ calculateCommunityScore 50000 500 = 100.
Proof.
  split; [|reflexivity].
  intros stars contributors sum. subst sum.
  unfold calculateCommunityScore, Math.min, Spec.stars_table,
    Spec.contributors_table, Spec.first_at_least.
  rewrite !Z.geb_leb.
  repeat match goal with |- context [?k <=? ?a] => destruct (k <=? a) end;
    simpl; lia.
Qed.

(* ===================================================================== *)
(** ** C3: the freshness sub-score *)
(* ===================================================================== *)

(** C3.  The freshness sub-score follows the young table (at most 30 days
    since the push gives 95, at most 90 gives 85, else 70) when fewer than
    365 days passed since creation, and the mature table (7: 95, 30: 85,
    90: 70, 180: 55, else 35) otherwise.  Created 10 days ago and pushed 5
    days ago scores 95 on the young table; created 730 days ago and pushed
    5 days ago scores 95 on the mature table. *)
Theorem C3_freshness_two_tier :
  (forall createdAt pushedAt w,
      let dc := daysAt (w 0%nat) createdAt in
      let dp := daysAt (w 1%nat) pushedAt in
      run (calculateFreshnessScore createdAt pushedAt) w
      = if JS.lt dc 365
        then Spec.first_at_most [(30, 95); (90, 85)] 70 dp
        else Spec.first_at_most [(7, 95); (30, 85); (90, 70); (180, 55)] 35 dp)
  /\ (forall now,
         JS.lt (daysAt now (daysBefore now 10)) 365 = true
         /\ run (calculateFreshnessScore (daysBefore now 10) (daysBefore now 5))
                (frozen now) = 95)
  /\ (forall now,
         JS.lt (daysAt now (daysBefore now 730)) 365 = false
         /\ run (calculateFreshnessScore (daysBefore now 730) (daysBefore now 5))
                (frozen now) = 95).
Proof.
  split; [|split].
  - intros. unfold run. rewrite calculateFreshnessScore_run. reflexivity.
  - intros now. unfold run. rewrite calculateFreshnessScore_run.
    unfold frozen, daysBefore. rewrite !daysAt_whole. split; reflexivity.
  - intros now. unfold run. rewrite calculateFreshnessScore_run.
    unfold frozen, daysBefore. rewrite !daysAt_whole. split; reflexivity.
Qed.

(* ===================================================================== *)
(** ** C4: the relative-time text *)
(* ===================================================================== *)

(** C4.  [getTimeAgo] maps the day count of [getDaysSince] as the table
    says: 0 "today", 1 "1 day ago", 2 to 6 "{n} days ago", 7 to 29 weeks
    (days div 7), 30 to 364 months (days div 30), 365 and more years (days
    div 365), each singular when the quotient is 1.  Every day count is
    reached, and 7 and 13 days both read "1 week ago". *)
Theorem C4_time_ago :
  (forall t w,
      exists d, run (getDaysSince (Some t)) w = Some d
                /\ 0 <= d
                /\ run (getTimeAgo (Some t)) w = Spec.timeAgo d)
  /\ (forall now n,
         run (getTimeAgo (daysBefore now n)) (frozen now) = Spec.timeAgo (Z.abs n))
  /\ (forall now,
         run (getTimeAgo (daysBefore now 0)) (frozen now) = "today"
         /\ run (getTimeAgo (daysBefore now 1)) (frozen now) = "1 day ago"
         /\ run (getTimeAgo (daysBefore now 6)) (frozen now) = "6 days ago"
         /\ run (getTimeAgo (daysBefore now 7)) (frozen now) = "1 week ago"
         /\ run (getTimeAgo (daysBefore now 13)) (frozen now) = "1 week ago"
         /\ run (getTimeAgo (daysBefore now 14)) (frozen now) = "2 weeks ago"
         /\ run (getTimeAgo (daysBefore now 29)) (frozen now) = "4 weeks ago"
         /\ run (getTimeAgo (daysBefore now 30)) (frozen now) = "1 month ago"
         /\ run (getTimeAgo (daysBefore now 364)) (frozen now) = "12 months ago"
         /\ run (getTimeAgo (daysBefore now 365)) (frozen now) = "1 year ago"
         /\ run (getTimeAgo (daysBefore now 730)) (frozen now) = "2 years ago").
Proof.
  assert (W : forall now n,
             run (getTimeAgo (daysBefore now n)) (frozen now) = Spec.timeAgo (Z.abs n)).
  { intros now n. unfold daysBefore.
    apply getTimeAgo_days; [apply daysAt_whole | lia]. }
  split; [|split].
  - intros t w. destruct (daysAt_bounds (w 0%nat) t) as (d & E & Hd & _).
    exists d. unfold run at 1. rewrite getDaysSince_run.
    split; [exact E|]. split; [exact Hd|]. apply getTimeAgo_days; assumption.
  - exact W.
  - intros now. rewrite !W. repeat split; reflexivity.
Qed.

(* ===================================================================== *)
(** ** C5: the day count *)
(* ===================================================================== *)

(** C5.  [getDaysSince] returns the ceiling of the absolute difference, in
    milliseconds, between the clock reading and the instant, divided by
    one day: the least [d] with [|now - t| <= d] days, for a reading and
    an instant less than [2^53] ms apart, where the difference of the two
    doubles is the exact integer.  The count is never negative, also for
    an instant in the future, and swapping the reading and the instant
    gives the same count. *)
Theorem C5_days_since :
  (forall t w,
      exists d, run (getDaysSince (Some t)) w = Some d /\ 0 <= d)
  /\ (forall t w,
         Z.abs (w 0%nat - t) < 2 ^ 53 ->
         exists d, run (getDaysSince (Some t)) w = Some d
                   /\ 0 <= d
                   /\ (d - 1) * Spec.msPerDay < Z.abs (w 0%nat - t) <= d * Spec.msPerDay)
  /\ (forall a b,
         run (getDaysSince (Some b)) (frozen a) = run (getDaysSince (Some a)) (frozen b))
  /\ (forall w w',
         run (getDaysSince (Some (w' 0%nat))) w = run (getDaysSince (Some (w 0%nat))) w').
Proof.
  assert (S : forall a b, daysAt a (Some b) = daysAt b (Some a)).
  { intros a b. rewrite !daysAt_Some.
    replace (Z.abs (b - a)) with (Z.abs (a - b)) by lia. reflexivity. }
  split; [|split; [|split]].
  - intros t w. unfold run. rewrite getDaysSince_run.
    destruct (daysAt_bounds (w 0%nat) t) as (d & E & Hd & _).
    exists d. split; assumption.
  - intros t w _. unfold run. rewrite getDaysSince_run. apply daysAt_bounds.
  - intros a b. apply S.
  - intros w w'. unfold run. rewrite !getDaysSince_run. apply S.
Qed.

(** An instant 1 ms in the future counts as one day. *)
Lemma C5_days_since_witness :
  Z.abs (frozen 1700000000000 0%nat - 1700000000001) < 2 ^ 53
  /\ exists d,
       run (getDaysSince (Some 1700000000001)) (frozen 1700000000000) = Some d
       /\ 0 <= d
       /\ (d - 1) * Spec.msPerDay
          < Z.abs (frozen 1700000000000 0%nat - 1700000000001)
          <= d * Spec.msPerDay.
Proof.
  split; [vm_compute; reflexivity|].
  apply (proj1 (proj2 C5_days_since)). vm_compute. reflexivity.
Defined.

(* ===================================================================== *)
(** ** C6: the signals *)
(* ===================================================================== *)

(** C6.  The signals are the labels whose conditions hold, in the order
    "Active", "Good Docs", "Beginner Friendly", "Large Community",
    "Modern"; when all five hold the list is exactly these five, when none
    holds it is empty. *)
Theorem C6_signals_in_order :
  (forall repo w,
      Repository.signals (run (transformGitHubRepoToRepository repo) w)
      = Spec.labels_that_hold (signal_conditions repo w))
  /\ (forall repo w,
         forallb snd (signal_conditions repo w) = true ->
         Repository.signals (run (transformGitHubRepoToRepository repo) w)
         = ["Active"; "Good Docs"; "Beginner Friendly"; "Large Community"; "Modern"])
  /\ (forall repo w,
         existsb snd (signal_conditions repo w) = false ->
         Repository.signals (run (transformGitHubRepoToRepository repo) w) = [])
  /\ Repository.signals (run (transformGitHubRepoToRepository all_signals)
                    (frozen (1001 * Spec.msPerDay)))
     = ["Active"; "Good Docs"; "Beginner Friendly"; "Large Community"; "Modern"]
  /\ Repository.signals (run (transformGitHubRepoToRepository abandoned)
                    (frozen (1000 * Spec.msPerDay))) = [].
Proof.
  split; [exact transform_signals|].
  split; [|split; [|split; vm_compute; reflexivity]].
  - intros repo w H. rewrite transform_signals.
    unfold signal_conditions in *. cbn [forallb snd] in H.
    repeat (apply andb_true_iff in H; destruct H as [? H]).
    repeat match goal with E : _ = true |- _ => rewrite E; clear E end.
    reflexivity.
  - intros repo w H. rewrite transform_signals.
    unfold signal_conditions in *. cbn [existsb snd] in H.
    repeat (apply orb_false_iff in H; destruct H as [? H]).
    repeat match goal with E : _ = false |- _ => rewrite E; clear E end.
    reflexivity.
Qed.

(* ===================================================================== *)
(** ** C7: the filler fields *)
(* ===================================================================== *)

(** C7 (as amended).  On every input the average issue response time is
    "< 2 days", the PR merge rate 75 and the code coverage 80.  With [c]
    the contributor count, 0 when absent: when [c < 2^52] the
    active-contributor estimate is the floor of the exact product
    [3/10 * c], and when [c < 2^53] the contributor-diversity estimate is
    the floor of the exact product [1/2 * c]. *)
Theorem C7_filler_fields :
  (forall repo w,
      let r := run (transformGitHubRepoToRepository repo) w in
      let c := JS.or_number (contributors repo) 0 in
      Repository.avgIssueResponseTime r = "< 2 days"
      /\ Repository.prMergeRate r = 75
      /\ Repository.codeCoverage r = 80
      /\ (contributors repo = None -> c = 0)
      /\ (0 <= c < 2 ^ 52 ->
          Repository.activeContributors r
          = Some (Math.floor ((3 # 10) * inject_Z c)))
      /\ (0 <= c < 2 ^ 53 ->
          Repository.contributorDiversity r
          = Some (Math.floor ((1 # 2) * inject_Z c))))
  /\ (let r := run (transformGitHubRepoToRepository thriving) (frozen 0) in
      Repository.activeContributors r = Some 210
      /\ Repository.contributorDiversity r = Some 350)
  /\ (let r := run (transformGitHubRepoToRepository abandoned) (frozen 0) in
      Repository.activeContributors r = Some 0
      /\ Repository.contributorDiversity r = Some 0).
Proof.
  split; [|split; cbv zeta; split; vm_compute; reflexivity].
  intros repo w r c.
  destruct (transform_constants repo w) as (A & B & C). fold r in A, B, C.
  destruct (transform_display repo w) as (_ & Ha & Hd & _). fold r c in Ha, Hd.
  split; [exact A|]. split; [exact B|]. split; [exact C|].
  split; [|split].
  - intros E. subst c. rewrite E. reflexivity.
  - intros Hc. rewrite Ha, floor_three_tenths. apply floor_mul_0_3, Hc.
  - intros Hc. rewrite Hd, floor_half. apply floor_mul_0_5, Hc.
Qed.

(** C7 (as stated) fails for a large contributor count: the double
    product [8000000000000003 * 0.3] rounds up to the integer
    2400000000000001, above the floor 2400000000000000 of the exact
    product 2400000000000000.9. *)
Lemma C7_large_count_rounds_up :
  let r := run (transformGitHubRepoToRepository huge_team) (frozen 0) in
  Repository.contributors r = 8000000000000003
  /\ Repository.activeContributors r = Some 2400000000000001
  /\ Math.floor ((3 # 10) * inject_Z 8000000000000003) = 2400000000000000
  /\ Repository.activeContributors r
     <> Some (Math.floor ((3 # 10) * inject_Z (Repository.contributors r))).
Proof.
  cbv zeta. split; [|split; [|split]]; try (vm_compute; reflexivity).
  vm_compute. discriminate.
Qed.

(* ===================================================================== *)
(** ** C8: defaults of absent fields *)
(* ===================================================================== *)

(** C8.  The transformer returns a record on every input (having read the
    clock nine times) and fills absent fields with defaults: an absent
    contributor count counts as 0, an absent license displays as
    "No License" and adds nothing to the compatibility score, an absent
    description displays as the fallback text, an absent CI signal counts
    as false and displays as [warning]. *)
Theorem C8_total_with_defaults :
  (forall repo w,
      let r := run (transformGitHubRepoToRepository repo) w in
      transformGitHubRepoToRepository repo w = (r, after 9 w)
      /\ (contributors repo = None ->
          Repository.contributors r = 0
          /\ community (Repository.healthBreakdown r)
             = calculateCommunityScore (stargazers_count repo) 0
          /\ Repository.activeContributors r = Some 0
          /\ Repository.contributorDiversity r = Some 0)
      /\ (license repo = None ->
          Repository.license r = "No License"
          /\ compatibility (Repository.healthBreakdown r)
             = 0 + (if JS.truthy_bool (hasCI repo) then 30 else 0)
               + (match topics repo with [] => 0 | _ :: _ => 30 end))
      /\ (description repo = None ->
          Repository.description r = "No description available"
          /\ documentation (Repository.healthBreakdown r)
             = 0 + (if has_wiki repo then 25 else 0)
               + (if has_pages repo then 25 else 0)
               + (if JS.truthy_string (homepage repo) then 25 else 0))
      /\ (hasCI repo = None ->
          Repository.ciStatus r = warning
          /\ compatibility (Repository.healthBreakdown r)
             = calculateCompatibilityScore (license repo) (Some false) (topics repo)))
  /\ (let r := run (transformGitHubRepoToRepository abandoned)
                   (frozen (1000 * Spec.msPerDay)) in
      Repository.contributors r = 0
      /\ Repository.license r = "No License"
      /\ Repository.description r = "No description available"
      /\ Repository.ciStatus r = warning
      /\ Repository.healthScore r = 18).
Proof.
  split; [|cbv zeta; repeat split; vm_compute; reflexivity].
  intros repo w r. split; [reflexivity|].
  destruct (transform_display repo w) as (Hc & Ha & Hd & Hl & He & Hs).
  fold r in Hc, Ha, Hd, Hl, He, Hs.
  assert (Hb : Repository.healthBreakdown r = subscores repo (after 3 w))
    by apply transform_breakdown.
  rewrite Hc, Ha, Hd, Hl, He, Hs, Hb. clear Hc Ha Hd Hl He Hs Hb.
  split; [|split; [|split]]; intros E.
  - unfold subscores. cbn [community].
    rewrite E. repeat split; reflexivity.
  - unfold subscores. cbn [compatibility]. rewrite E. split; [reflexivity|].
    unfold calculateCompatibilityScore.
    destruct (JS.truthy_bool (hasCI repo)), (topics repo); reflexivity.
  - unfold subscores. cbn [documentation]. rewrite E. split; [reflexivity|].
    unfold calculateDocumentationScore.
    destruct (has_wiki repo), (has_pages repo), (JS.truthy_string (homepage repo));
      reflexivity.
  - unfold subscores. cbn [compatibility]. rewrite E. split; reflexivity.
Qed.

(* ===================================================================== *)
(** ** C9: the range of the health score *)
(* ===================================================================== *)

(** C9.  The health score lies in [18, 98]: the activity score lies in
    [30, 95], the community score is at least 25, the freshness score lies
    in [35, 95].  Both ends are reached. *)
Theorem C9_health_score_range :
  (forall repo w,
      let b := subscores repo w in
      18 <= run (calculateHealthScore repo) w <= 98
      /\ 30 <= activity b <= 95
      /\ 25 <= community b
      /\ 35 <= freshness b <= 95)
  /\ run (calculateHealthScore abandoned) (frozen (1000 * Spec.msPerDay)) = 18
  /\ run (calculateHealthScore thriving) (frozen (1001 * Spec.msPerDay)) = 98.
Proof.
  split; [|split; vm_compute; reflexivity].
  intros repo w b.
  assert (H : run (calculateHealthScore repo) w = Math.round (Spec.mean b))
    by reflexivity.
  rewrite H, round_mean. clear H.
  assert (A : 30 <= activity b <= 95).
  { subst b. unfold subscores, run. cbn [activity].
    rewrite calculateActivityScore_run. apply first_at_most_activity_bounds. }
  assert (F : 35 <= freshness b <= 95).
  { subst b. unfold subscores, run. cbn [freshness].
    rewrite calculateFreshnessScore_run. apply freshness_policy_bounds. }
  assert (C : 25 <= community b <= 100) by apply community_bounds.
  assert (D : 0 <= documentation b <= 100) by apply documentation_bounds.
  assert (K : 0 <= compatibility b <= 100) by apply compatibility_bounds.
  clearbody b. repeat split; try lia.
  - apply Z.div_le_lower_bound; lia.
  - apply Z.lt_succ_r, Z.div_lt_upper_bound; lia.
Qed.

(* ===================================================================== *)
(** ** C10: trend and signals *)
(* ===================================================================== *)

(** C10.  The trend is [up] exactly when "Active" is among the signals:
    both are decided by the one day count read for the push.  Hence a
    [down] or [stable] trend comes without "Active". *)
Theorem C10_trend_up_iff_active :
  forall repo w,
    let r := run (transformGitHubRepoToRepository repo) w in
    (Repository.trend r = up <-> In "Active" (Repository.signals r))
    /\ (Repository.trend r = down \/ Repository.trend r = stable ->
        ~ In "Active" (Repository.signals r)).
Proof.
  intros repo w r.
  assert (I : Repository.trend r = up <-> In "Active" (Repository.signals r)).
  { subst r. rewrite transform_signals, transform_trend.
    unfold signal_conditions. cbv zeta.
    destruct (JS.le _ 7).
    - cbn [Spec.labels_that_hold]. split; [intros _; left; reflexivity | reflexivity].
    - cbn [Spec.labels_that_hold]. split.
      + destruct (JS.gt _ 90); discriminate.
      + destruct (has_wiki repo || has_pages repo || _), (positive_count _),
          (10000 <=? _), (JS.lt _ 730); simpl; intuition discriminate. }
  split; [exact I|].
  intros [H | H] A; apply I in A; rewrite A in H; discriminate H.
Qed.

(* ===================================================================== *)
(** ** More on the time utilities *)
(* ===================================================================== *)

Lemma append_assoc (a b c : string) : (a ++ b) ++ c = a ++ (b ++ c).
Proof. induction a as [|x a IH]; simpl; [reflexivity | now rewrite IH]. Qed.

Lemma length_append (a b : string) :
  String.length (a ++ b) = (String.length a + String.length b)%nat.
Proof. induction a as [|x a IH]; simpl; [reflexivity | now rewrite IH]. Qed.

Lemma transform_lastCommit (repo : GitHubRepoData) (w : Clock) :
  Repository.lastCommit (run (transformGitHubRepoToRepository repo) w)
  = run (getTimeAgo (pushed_at repo)) (after 8 w).
Proof. reflexivity. Qed.

(** Every text of [Spec.timeAgo] other than "today" is at least nine
    characters long. *)
Lemma timeAgo_long (d : Z) :
  0 < d -> (9 <= String.length (Spec.timeAgo d))%nat.
Proof.
  intros Hd. unfold Spec.timeAgo, Spec.counted.
  replace (d =? 0) with false by (symmetry; apply Z.eqb_neq; lia).
  repeat match goal with
         | |- context [if ?c then _ else _] => destruct c eqn:?
         end;
    rewrite ?length_append; simpl; try lia.
Qed.

(** X1.  The day count is 0 only when the instant is the clock reading
    itself, so [getTimeAgo] answers "today" only then: one millisecond
    of distance already reads "1 day ago". *)
Theorem X1_today_only_at_the_same_instant :
  forall t w,
    (run (getDaysSince (Some t)) w = Some 0 <-> w 0%nat = t)
    /\ (run (getTimeAgo (Some t)) w = "today" <-> w 0%nat = t)
    /\ run (getTimeAgo (Some (w 0%nat - 1))) w = "1 day ago".
Proof.
  intros t w.
  destruct (daysAt_bounds (w 0%nat) t) as (d & E & Hd & B).
  assert (Z0 : d = 0 <-> w 0%nat = t) by (unfold Spec.msPerDay in B; lia).
  split; [|split].
  - unfold run. rewrite getDaysSince_run. cbn [fst]. rewrite E.
    split; [intros H; apply Z0; congruence | intros H; f_equal; apply Z0, H].
  - rewrite (getTimeAgo_days t w d E Hd). split.
    + intros H. apply Z0.
      destruct (Z.eq_dec d 0) as [e|n]; [exact e|].
      pose proof (timeAgo_long d ltac:(lia)) as L. rewrite H in L.
      simpl in L. lia.
    + intros H. apply Z0 in H. subst d. reflexivity.
  - assert (E1 : daysAt (w 0%nat) (Some (w 0%nat - 1)) = Some 1).
    { rewrite daysAt_Some. f_equal.
      replace (w 0%nat - (w 0%nat - 1)) with 1 by lia. reflexivity. }
    rewrite (getTimeAgo_days _ w 1 E1 ltac:(lia)). reflexivity.
Qed.

(** X2.  For a date that parses, [getTimeAgo] returns "today", a singular
    "1 day/week/month/year ago", or a plural with a count of at least 2:
    at most 6 days, 4 weeks, 12 months.  It never prints a count of 0, a
    plural with 1, "5 weeks" or "13 months". *)
Theorem X2_time_ago_texts :
  forall t w, TimeAgoText (run (getTimeAgo (Some t)) w).
Proof.
  intros t w.
  destruct (daysAt_bounds (w 0%nat) t) as (d & E & Hd & _).
  rewrite (getTimeAgo_days t w d E Hd).
  unfold Spec.timeAgo, Spec.counted.
  destruct (Z.eqb_spec d 0); [apply text_today|].
  destruct (Z.eqb_spec d 1); [apply (text_one Day)|].
  destruct (Z.leb_spec 2 d); [|lia]. cbn [andb].
  destruct (Z.leb_spec d 6); [apply (text_many Day); simpl; lia|].
  destruct (Z.leb_spec 7 d); [|lia]. cbn [andb].
  destruct (Z.leb_spec d 29).
  { pose proof (Z.div_le_lower_bound d 7 1 ltac:(lia) ltac:(lia)).
    pose proof (Z.div_lt_upper_bound d 7 5 ltac:(lia) ltac:(lia)).
    destruct (Z.eqb_spec (d / 7) 1); [apply (text_one Week)|].
    apply (text_many Week); simpl; lia. }
  destruct (Z.leb_spec 30 d); [|lia]. cbn [andb].
  destruct (Z.leb_spec d 364).
  { pose proof (Z.div_le_lower_bound d 30 1 ltac:(lia) ltac:(lia)).
    pose proof (Z.div_lt_upper_bound d 30 13 ltac:(lia) ltac:(lia)).
    destruct (Z.eqb_spec (d / 30) 1); [apply (text_one Month)|].
    apply (text_many Month); simpl; lia. }
  destruct (Z.leb_spec 365 d); [|lia].
  pose proof (Z.div_le_lower_bound d 365 1 ltac:(lia) ltac:(lia)).
  destruct (Z.eqb_spec (d / 365) 1); [apply (text_one Year)|].
  apply (text_many Year); simpl; [lia | exact I].
Qed.

(* ===================================================================== *)
(** ** More on the scores *)
(* ===================================================================== *)

Lemma transform_flags (repo : GitHubRepoData) (w : Clock) :
  let r := run (transformGitHubRepoToRepository repo) w in
  Repository.hasGoodDocs r
  = (has_wiki repo || has_pages repo || JS.truthy_string (homepage repo))
  /\ Repository.hasWiki r = has_wiki repo
  /\ Repository.hasWebsite r = JS.truthy_string (homepage repo)
  /\ Repository.goodFirstIssues r = JS.or_number (goodFirstIssues repo) 0
  /\ Repository.stars r = stargazers_count repo.
Proof. cbv zeta. repeat split; reflexivity. Qed.

Lemma daysAt_mono (now now' t t' : Z) :
  Z.abs (now - t) <= Z.abs (now' - t') ->
  exists d d', daysAt now (Some t) = Some d
               /\ daysAt now' (Some t') = Some d'
               /\ d <= d'.
Proof.
  intros H. rewrite !daysAt_Some. do 2 eexists.
  split; [reflexivity|]. split; [reflexivity|].
  apply Z.opp_le_mono. rewrite !Z.opp_involutive.
  apply Z.div_le_mono; [reflexivity | lia].
Qed.

Lemma activity_table_antitone (d d' : Z) :
  d <= d' ->
  Spec.first_at_most Spec.activity_table 30 (Some d')
  <= Spec.first_at_most Spec.activity_table 30 (Some d).
Proof.
  intros H. unfold Spec.activity_table, Spec.first_at_most, JS.le.
  repeat match goal with
         | |- context [?a <=? ?k] => destruct (Z.leb_spec a k)
         end; lia.
Qed.

Lemma freshness_policy_antitone (dc dc' : JS.number) (d d' : Z) :
  d <= d' ->
  JS.lt dc 365 = true \/ JS.lt dc' 365 = false ->
  Spec.freshness_policy dc' (Some d') <= Spec.freshness_policy dc (Some d).
Proof.
  intros H Y.
  unfold Spec.freshness_policy, Spec.young_table, Spec.mature_table,
    Spec.first_at_most, JS.le.
  destruct (JS.lt dc 365), (JS.lt dc' 365);
    try (destruct Y; discriminate);
    repeat match goal with
           | |- context [?a <=? ?k] => destruct (Z.leb_spec a k)
           end; lia.
Qed.

(** X3.  When the push date does not parse, every comparison of its day
    count fails: the activity score is the lowest bucket, 30; the
    freshness score is the last row of its table, 70 for a young
    repository (creation day count below 365) and 35 for a mature one,
    which includes a creation date that does not parse either; the trend
    is [stable]; "Active" is not signalled; and the relative-time text
    reads "NaN years ago". *)
Theorem X3_unparseable_push_date :
  forall repo w,
    pushed_at repo = None ->
    let r := run (transformGitHubRepoToRepository repo) w in
    let daysSinceCreation := daysAt (w 4%nat) (created_at repo) in
    activity (Repository.healthBreakdown r) = 30
    /\ freshness (Repository.healthBreakdown r)
       = (if JS.lt daysSinceCreation 365 then 70 else 35)
    /\ (forall d, daysSinceCreation = Some d -> d < 365 ->
        freshness (Repository.healthBreakdown r) = 70)
    /\ (forall d, daysSinceCreation = Some d -> 365 <= d ->
        freshness (Repository.healthBreakdown r) = 35)
    /\ (created_at repo = None -> freshness (Repository.healthBreakdown r) = 35)
    /\ Repository.trend r = stable
    /\ ~ In "Active" (Repository.signals r)
    /\ Repository.lastCommit r = "NaN years ago".
Proof.
  intros repo w E r dc. subst r.
  assert (F : freshness (Repository.healthBreakdown
                           (run (transformGitHubRepoToRepository repo) w))
              = if JS.lt dc 365 then 70 else 35).
  { rewrite transform_breakdown. unfold subscores, run. cbn [freshness].
    rewrite calculateFreshnessScore_run, E. reflexivity. }
  rewrite F.
  rewrite transform_breakdown, transform_trend, transform_signals,
    transform_lastCommit.
  unfold subscores, signal_conditions, run. cbn [activity].
  rewrite calculateActivityScore_run, E.
  cbn [fst]. split; [reflexivity|]. split; [reflexivity|].
  split; [|split; [|split; [|split; [reflexivity|split]]]].
  - intros d -> Hd. unfold JS.lt.
    destruct (Z.ltb_spec d 365); [reflexivity | lia].
  - intros d -> Hd. unfold JS.lt.
    destruct (Z.ltb_spec d 365); [lia | reflexivity].
  - intros C. subst dc. rewrite C. reflexivity.
  - change (JS.le (daysAt (w 6%nat) None) 7) with false.
    cbn [Spec.labels_that_hold].
    destruct (has_wiki repo || has_pages repo || _), (positive_count _),
      (10000 <=? _), (JS.lt _ 730); simpl; intuition discriminate.
  - reflexivity.
Qed.

(** A repository created 100 days before the readings, whose push date
    does not parse: freshness 70. *)
Lemma X3_unparseable_push_date_witness :
  pushed_at unpushed = None
  /\ (let r := run (transformGitHubRepoToRepository unpushed)
                   (frozen (1000 * Spec.msPerDay)) in
      let daysSinceCreation :=
        daysAt (frozen (1000 * Spec.msPerDay) 4%nat)
               (created_at unpushed) in
      activity (Repository.healthBreakdown r) = 30
      /\ freshness (Repository.healthBreakdown r)
         = (if JS.lt daysSinceCreation 365 then 70 else 35)
      /\ (forall d, daysSinceCreation = Some d -> d < 365 ->
          freshness (Repository.healthBreakdown r) = 70)
      /\ (forall d, daysSinceCreation = Some d -> 365 <= d ->
          freshness (Repository.healthBreakdown r) = 35)
      /\ (created_at unpushed = None ->
          freshness (Repository.healthBreakdown r) = 35)
      /\ Repository.trend r = stable
      /\ ~ In "Active" (Repository.signals r)
      /\ Repository.lastCommit r = "NaN years ago").
Proof.
  split; [reflexivity|].
  apply (X3_unparseable_push_date unpushed
           (frozen (1000 * Spec.msPerDay))).
  reflexivity.
Defined.

(** X4.  The activity score never rises with the age of the push: of two
    pushes, the one further from its clock reading scores at most as much
    as the other. *)
Theorem X4_activity_falls_with_age :
  forall t t' w w',
    Z.abs (w 0%nat - t) <= Z.abs (w' 0%nat - t') ->
    run (calculateActivityScore (Some t')) w'
    <= run (calculateActivityScore (Some t)) w.
Proof.
  intros t t' w w' H. unfold run. rewrite !calculateActivityScore_run. cbn [fst].
  destruct (daysAt_mono _ _ _ _ H) as (d & d' & E & E' & L).
  rewrite E, E'. apply activity_table_antitone, L.
Qed.

Lemma X4_activity_falls_with_age_witness :
  Z.abs (frozen 10 0%nat - 3) <= Z.abs (frozen 864000000 0%nat - 3)
  /\ run (calculateActivityScore (Some 3)) (frozen 864000000)
     <= run (calculateActivityScore (Some 3)) (frozen 10).
Proof.
  split; [vm_compute; discriminate|].
  apply (X4_activity_falls_with_age 3 3 (frozen 10) (frozen 864000000)).
  vm_compute; discriminate.
Defined.

(** X5.  The freshness score never rises with the age of the push, and a
    young repository (created fewer than 365 days ago) is never scored
    below a mature one: if the first push is no older than the second and
    the first repository is young or the second mature, the first scores
    at least as much. *)
Theorem X5_freshness_falls_with_age :
  forall c c' t t' w w',
    Z.abs (w 1%nat - t) <= Z.abs (w' 1%nat - t') ->
    JS.lt (daysAt (w 0%nat) c) 365 = true
    \/ JS.lt (daysAt (w' 0%nat) c') 365 = false ->
    run (calculateFreshnessScore c' (Some t')) w'
    <= run (calculateFreshnessScore c (Some t)) w.
Proof.
  intros c c' t t' w w' H Y. unfold run.
  rewrite !calculateFreshnessScore_run. cbn [fst].
  destruct (daysAt_mono _ _ _ _ H) as (d & d' & E & E' & L).
  rewrite E, E'. apply freshness_policy_antitone; assumption.
Qed.

Lemma X5_freshness_falls_with_age_witness :
  Z.abs (frozen 864000000 1%nat - 863999000)
  <= Z.abs (frozen 864000000 1%nat - 0)
  /\ (JS.lt (daysAt (frozen 864000000 0%nat) (Some 0)) 365 = true
      \/ JS.lt (daysAt (frozen 864000000 0%nat) (Some 0)) 365 = false)
  /\ run (calculateFreshnessScore (Some 0) (Some 0)) (frozen 864000000)
     <= run (calculateFreshnessScore (Some 0) (Some 863999000)) (frozen 864000000).
Proof.
  split; [vm_compute; discriminate|]. split; [left; reflexivity|].
  apply (X5_freshness_falls_with_age (Some 0) (Some 0) 863999000 0
           (frozen 864000000) (frozen 864000000)).
  - vm_compute; discriminate.
  - left; reflexivity.
Defined.

(* ===================================================================== *)
(** ** How the fields of the display record agree *)
(* ===================================================================== *)

Lemma labels_NoDup (a b c d e : bool) :
  NoDup (Spec.labels_that_hold
           [("Active", a); ("Good Docs", b); ("Beginner Friendly", c);
            ("Large Community", d); ("Modern", e)]).
Proof.
  destruct a, b, c, d, e; cbn [Spec.labels_that_hold];
    repeat (constructor; [simpl; intuition discriminate|]); constructor.
Qed.

(** Membership of each label is its own condition. *)
Lemma labels_In (a b c d e : bool) :
  let l := Spec.labels_that_hold
             [("Active", a); ("Good Docs", b); ("Beginner Friendly", c);
              ("Large Community", d); ("Modern", e)] in
  (In "Active" l <-> a = true)
  /\ (In "Good Docs" l <-> b = true)
  /\ (In "Beginner Friendly" l <-> c = true)
  /\ (In "Large Community" l <-> d = true)
  /\ (In "Modern" l <-> e = true).
Proof.
  destruct a, b, c, d, e; cbn [Spec.labels_that_hold]; simpl;
    repeat split; intros; try reflexivity; try discriminate; intuition discriminate.
Qed.

(** X6.  The documentation fields agree: [hasGoodDocs] holds exactly when
    "Good Docs" is signalled; a wiki or a website implies it; it implies a
    documentation score of at least 25, and a documentation score of 50
    or more implies it (a description alone earns 25). *)
Theorem X6_documentation_fields_agree :
  forall repo w,
    let r := run (transformGitHubRepoToRepository repo) w in
    (Repository.hasGoodDocs r = true <-> In "Good Docs" (Repository.signals r))
    /\ (Repository.hasWiki r = true -> Repository.hasGoodDocs r = true)
    /\ (Repository.hasWebsite r = true -> Repository.hasGoodDocs r = true)
    /\ (Repository.hasGoodDocs r = true ->
        25 <= documentation (Repository.healthBreakdown r))
    /\ (50 <= documentation (Repository.healthBreakdown r) ->
        Repository.hasGoodDocs r = true).
Proof.
  intros repo w r.
  destruct (transform_flags repo w) as (G & W & S & _). fold r in G, W, S.
  assert (B : Repository.healthBreakdown r = subscores repo (after 3 w))
    by apply transform_breakdown.
  assert (L : Repository.signals r = Spec.labels_that_hold (signal_conditions repo w))
    by apply transform_signals.
  rewrite G, W, S, B, L. unfold signal_conditions.
  split.
  { match goal with
    | |- _ <-> In _ (Spec.labels_that_hold
                       [(_, ?a); (_, ?b); (_, ?c); (_, ?d); (_, ?e)]) =>
        destruct (labels_In a b c d e) as (_ & H & _)
    end.
    cbv zeta in H. symmetry. exact H. }
  unfold subscores. cbn [documentation]. unfold calculateDocumentationScore.
  destruct (has_wiki repo), (has_pages repo), (JS.truthy_string (homepage repo));
    repeat split; intros; try reflexivity; try discriminate;
    repeat match goal with
           | |- context [if ?c then _ else _] => destruct c
           | H : context [if ?c then _ else _] |- _ => destruct c
           end; simpl in *; lia.
Qed.

(** X7.  The CI status is [passing] exactly when the CI signal is present
    and true, and then the compatibility score is at least 30; a
    displayed license other than "No License" means at least 40; the
    score is 100 exactly when a license, a true CI signal and a topic are
    all present. *)
Theorem X7_compatibility_fields_agree :
  forall repo w,
    let r := run (transformGitHubRepoToRepository repo) w in
    let c := compatibility (Repository.healthBreakdown r) in
    (Repository.ciStatus r = passing <-> hasCI repo = Some true)
    /\ (Repository.ciStatus r = passing -> 30 <= c)
    /\ (Repository.license r <> "No License" -> 40 <= c)
    /\ (c = 100 <->
        license repo <> None /\ hasCI repo = Some true /\ topics repo <> []).
Proof.
  intros repo w r c.
  destruct (transform_display repo w) as (_ & _ & _ & Hl & _ & Hs).
  fold r in Hl, Hs.
  assert (B : c = calculateCompatibilityScore (license repo) (hasCI repo) (topics repo))
    by reflexivity.
  rewrite Hl, Hs, B. clear Hl Hs B. unfold calculateCompatibilityScore.
  destruct (license repo) as [l|], (hasCI repo) as [[|]|], (topics repo) as [|x xs];
    cbn [JS.truthy_bool option_map List.length Z.of_nat JS.or_string];
    repeat split; intros; try reflexivity; try discriminate; try congruence;
    try (simpl; lia);
    repeat match goal with
           | H : _ /\ _ |- _ => destruct H
           end; try congruence; try (simpl in *; lia).
Qed.

(** X8.  The signals agree with the displayed numbers and never repeat a
    label: "Beginner Friendly" is signalled exactly when the displayed
    good-first-issue count is positive, "Large Community" exactly when
    the displayed stars are at least 10000, and then the community score
    is at least 55. *)
Theorem X8_signals_match_displayed_counts :
  forall repo w,
    let r := run (transformGitHubRepoToRepository repo) w in
    (In "Beginner Friendly" (Repository.signals r)
     <-> 0 < Repository.goodFirstIssues r)
    /\ (In "Large Community" (Repository.signals r)
        <-> 10000 <= Repository.stars r)
    /\ (In "Large Community" (Repository.signals r) ->
        55 <= community (Repository.healthBreakdown r))
    /\ NoDup (Repository.signals r).
Proof.
  intros repo w r.
  destruct (transform_flags repo w) as (_ & _ & _ & G & S). fold r in G, S.
  assert (B : community (Repository.healthBreakdown r)
              = calculateCommunityScore (stargazers_count repo)
                                        (JS.or_number (contributors repo) 0))
    by reflexivity.
  assert (L : Repository.signals r = Spec.labels_that_hold (signal_conditions repo w))
    by apply transform_signals.
  rewrite G, S, B, L. unfold signal_conditions.
  match goal with
  | |- context [Spec.labels_that_hold
                  [(_, ?a); (_, ?b); (_, ?c); (_, ?d); (_, ?e)]] =>
      destruct (labels_In a b c d e) as (_ & _ & Hc & Hd & _);
      pose proof (labels_NoDup a b c d e) as N
  end.
  cbv zeta in Hc, Hd.
  assert (Pc : positive_count (goodFirstIssues repo) = true
               <-> 0 < JS.or_number (goodFirstIssues repo) 0).
  { unfold positive_count, JS.or_number.
    destruct (goodFirstIssues repo) as [g|]; [|split; [discriminate|lia]].
    destruct (Z.eqb_spec g 0); rewrite Z.ltb_lt; lia. }
  split; [rewrite Hc; exact Pc|].
  split; [rewrite Hd; apply Z.leb_le|].
  split; [|exact N].
  rewrite Hd, Z.leb_le. intros H.
  pose proof (community_bounds (stargazers_count repo)
                (JS.or_number (contributors repo) 0)) as Cb.
  unfold calculateCommunityScore, Math.min in *.
  repeat match goal with
         | |- context [?a >=? ?k] => destruct (Z.geb_spec a k)
         end; simpl; lia.
Qed.

(** X9.  While the clock stands still, trend and activity score agree:
    the trend is [up] exactly when the activity score is 95, a [down]
    trend comes with an activity score of at most 50, and an activity
    score of at most 50 means [down] unless the push date does not
    parse (then the trend is [stable] with an activity score of 30). *)
Theorem X9_trend_matches_activity :
  forall repo now,
    let r := run (transformGitHubRepoToRepository repo) (frozen now) in
    let a := activity (Repository.healthBreakdown r) in
    (Repository.trend r = up <-> a = 95)
    /\ (Repository.trend r = down -> a <= 50)
    /\ (a <= 50 -> Repository.trend r = down \/ pushed_at repo = None)
    /\ (pushed_at repo = None -> Repository.trend r = stable /\ a = 30).
Proof.
  intros repo now r a.
  assert (T : Repository.trend r
              = let d := daysAt now (pushed_at repo) in
                if JS.le d 7 then up else if JS.gt d 90 then down else stable)
    by reflexivity.
  assert (A : a = Spec.first_at_most Spec.activity_table 30
                    (daysAt now (pushed_at repo))) by reflexivity.
  rewrite T, A. clear T A. cbv zeta.
  destruct (pushed_at repo) as [t|].
  - destruct (daysAt_bounds now t) as (d & E & _). rewrite E.
    unfold Spec.activity_table, Spec.first_at_most, JS.le, JS.gt.
    rewrite Z.gtb_ltb.
    repeat match goal with
           | |- context [?x <=? ?k] => destruct (Z.leb_spec x k)
           | |- context [?x <? ?k] => destruct (Z.ltb_spec x k)
           end;
      repeat split; intros; try discriminate; try reflexivity; try lia;
      try (left; reflexivity).
  - change (daysAt now None) with (@None Z). cbn.
    repeat split; intros; try discriminate; try lia; try (right; reflexivity).
Qed.

(** X10.  For a contributor count below [2^52] the two estimates are
    ordered: the active-contributor estimate is at most the diversity
    estimate, which is at most the displayed contributor count. *)
Theorem X10_estimates_are_ordered :
  forall repo w,
    0 <= JS.or_number (contributors repo) 0 < 2 ^ 52 ->
    let r := run (transformGitHubRepoToRepository repo) w in
    exists a d,
      Repository.activeContributors r = Some a
      /\ Repository.contributorDiversity r = Some d
      /\ 0 <= a <= d
      /\ d <= Repository.contributors r.
Proof.
  intros repo w Hc r.
  destruct (transform_display repo w) as (C & A & D & _). fold r in C, A, D.
  cbv zeta in C, A, D.
  set (c := JS.or_number (contributors repo) 0) in *.
  exists (3 * c / 10), (c / 2). rewrite C, A, D.
  split; [apply floor_mul_0_3, Hc|].
  split; [apply floor_mul_0_5;
          change (2 ^ 52) with 4503599627370496 in Hc;
          change (2 ^ 53) with 9007199254740992; lia|].
  pose proof (Z.div_mod (3 * c) 10 ltac:(lia)).
  pose proof (Z.mod_pos_bound (3 * c) 10 ltac:(lia)).
  pose proof (Z.div_mod c 2 ltac:(lia)).
  pose proof (Z.mod_pos_bound c 2 ltac:(lia)).
  lia.
Qed.

Lemma X10_estimates_are_ordered_witness :
  0 <= JS.or_number (contributors thriving) 0 < 2 ^ 52
  /\ (let r := run (transformGitHubRepoToRepository thriving) (frozen 0) in
      exists a d,
        Repository.activeContributors r = Some a
        /\ Repository.contributorDiversity r = Some d
        /\ 0 <= a <= d
        /\ d <= Repository.contributors r).
Proof.
  split; [vm_compute; split; [discriminate | reflexivity]|].
  apply (X10_estimates_are_ordered thriving (frozen 0)).
  vm_compute; split; [discriminate | reflexivity].
Defined.

(** X11.  More stars or more contributors never lower the community
    score, nor the health score computed on the same clock. *)
Theorem X11_popularity_never_lowers_the_score :
  forall repo stars' contributors' w,
    stargazers_count repo <= stars' ->
    JS.or_number (contributors repo) 0 <= JS.or_number contributors' 0 ->
    calculateCommunityScore (stargazers_count repo)
                            (JS.or_number (contributors repo) 0)
    <= calculateCommunityScore stars' (JS.or_number contributors' 0)
    /\ run (calculateHealthScore repo) w
       <= run (calculateHealthScore (with_popularity repo stars' contributors')) w.
Proof.
  intros repo s' c' w Hs Hc.
  assert (M : calculateCommunityScore (stargazers_count repo)
                                      (JS.or_number (contributors repo) 0)
              <= calculateCommunityScore s' (JS.or_number c' 0)).
  { unfold calculateCommunityScore, Math.min.
    repeat match goal with
           | |- context [?a >=? ?k] => destruct (Z.geb_spec a k)
           end; simpl; lia. }
  split; [exact M|].
  unfold run. rewrite !calculateHealthScore_run. cbn [fst].
  rewrite !round_mean.
  apply Z.div_le_mono; [lia|].
  unfold subscores. cbn [activity community documentation freshness compatibility].
  cbn [with_popularity pushed_at stargazers_count contributors description
       has_wiki has_pages homepage created_at license hasCI topics].
  lia.
Qed.

Lemma X11_popularity_never_lowers_the_score_witness :
  stargazers_count abandoned <= 5000
  /\ JS.or_number (contributors abandoned) 0 <= JS.or_number (Some 20) 0
  /\ calculateCommunityScore (stargazers_count abandoned)
                             (JS.or_number (contributors abandoned) 0)
     <= calculateCommunityScore 5000 (JS.or_number (Some 20) 0)
  /\ run (calculateHealthScore abandoned) (frozen 0)
     <= run (calculateHealthScore (with_popularity abandoned 5000 (Some 20)))
            (frozen 0).
Proof.
  split; [vm_compute; discriminate|]. split; [vm_compute; discriminate|].
  apply (X11_popularity_never_lowers_the_score abandoned 5000 (Some 20) (frozen 0));
    vm_compute; discriminate.
Defined.

(* ===================================================================== *)
(** ** The search results page *)
(* ===================================================================== *)

(** The health score of a transformed record lies in [18, 98]. *)
Lemma transform_healthScore_range (repo : GitHubRepoData) (w : Clock) :
  18 <= Repository.healthScore (run (transformGitHubRepoToRepository repo) w) <= 98.
Proof.
  rewrite transform_healthScore, round_mean.
  set (b := subscores repo w).
  assert (A : 30 <= activity b <= 95).
  { subst b. unfold subscores, run. cbn [activity].
    rewrite calculateActivityScore_run. apply first_at_most_activity_bounds. }
  assert (F : 35 <= freshness b <= 95).
  { subst b. unfold subscores, run. cbn [freshness].
    rewrite calculateFreshnessScore_run. apply freshness_policy_bounds. }
  assert (C : 25 <= community b <= 100) by apply community_bounds.
  assert (D : 0 <= documentation b <= 100) by apply documentation_bounds.
  assert (K : 0 <= compatibility b <= 100) by apply compatibility_bounds.
  clearbody b. split.
  - apply Z.div_le_lower_bound; lia.
  - apply Z.lt_succ_r, Z.div_lt_upper_bound; lia.
Qed.

(** X12.  Filters that ask for nothing keep every search result: with a
    health range that contains [18, 98], no minimum issue count and the CI
    and documentation switches off (as in the initial filters), the
    filter of [performSearch] SearchResultsPage.keeps every transformed record. *)
Theorem X12_idle_filters_keep_everything :
  forall filters repo w,
    fst (SearchResultsPage.healthRange filters) <= 18 ->
    98 <= snd (SearchResultsPage.healthRange filters) ->
    SearchResultsPage.minIssues filters <= 0 ->
    SearchResultsPage.hasCi filters = false ->
    SearchResultsPage.hasDocs filters = false ->
    SearchResultsPage.keeps filters (run (transformGitHubRepoToRepository repo) w) = true.
Proof.
  intros f repo w Hlo Hhi Hm Hc Hd. unfold SearchResultsPage.keeps.
  pose proof (transform_healthScore_range repo w) as R.
  rewrite Hc, Hd. cbn [andb].
  replace (_ <? fst (SearchResultsPage.healthRange f)) with false by (symmetry; apply Z.ltb_ge; lia).
  replace (_ >? snd (SearchResultsPage.healthRange f)) with false
    by (symmetry; rewrite Z.gtb_ltb; apply Z.ltb_ge; lia).
  replace (SearchResultsPage.minIssues f >? 0) with false
    by (symmetry; rewrite Z.gtb_ltb; apply Z.ltb_ge; lia).
  reflexivity.
Qed.

Lemma X12_idle_filters_keep_everything_witness :
  fst (SearchResultsPage.healthRange SearchResultsPage.initialFilters) <= 18
  /\ 98 <= snd (SearchResultsPage.healthRange SearchResultsPage.initialFilters)
  /\ SearchResultsPage.minIssues SearchResultsPage.initialFilters <= 0
  /\ SearchResultsPage.hasCi SearchResultsPage.initialFilters = false
  /\ SearchResultsPage.hasDocs SearchResultsPage.initialFilters = false
  /\ SearchResultsPage.keeps SearchResultsPage.initialFilters
           (run (transformGitHubRepoToRepository thriving) (frozen 0)) = true.
Proof.
  repeat (split; [vm_compute; first [reflexivity | discriminate]|]).
  apply (X12_idle_filters_keep_everything SearchResultsPage.initialFilters thriving (frozen 0));
    vm_compute; first [reflexivity | discriminate].
Defined.

(** X13.  What a kept record says about the input: its health score is
    within the range; with a positive minimum issue count the input has
    at least that many good first issues; with the CI switch on the
    input's CI signal is present and true; with the documentation switch
    on the input has a wiki, a site or a homepage. *)
Theorem X13_kept_records_satisfy_the_filters :
  forall filters repo w,
    let r := run (transformGitHubRepoToRepository repo) w in
    SearchResultsPage.keeps filters r = true ->
    fst (SearchResultsPage.healthRange filters) <= Repository.healthScore r <= snd (SearchResultsPage.healthRange filters)
    /\ (0 < SearchResultsPage.minIssues filters ->
        exists g, goodFirstIssues repo = Some g /\ SearchResultsPage.minIssues filters <= g)
    /\ (SearchResultsPage.hasCi filters = true -> hasCI repo = Some true)
    /\ (SearchResultsPage.hasDocs filters = true ->
        has_wiki repo = true \/ has_pages repo = true
        \/ JS.truthy_string (homepage repo) = true).
Proof.
  intros f repo w r K. unfold SearchResultsPage.keeps in K.
  destruct (transform_flags repo w) as (G & _ & _ & I & _). fold r in G, I.
  destruct (transform_display repo w) as (_ & _ & _ & _ & _ & S). fold r in S.
  rewrite G, I, S in K. clear G I S.
  destruct (Z.ltb_spec (Repository.healthScore r) (fst (SearchResultsPage.healthRange f)));
    [discriminate|].
  rewrite Z.gtb_ltb in K.
  destruct (Z.ltb_spec (snd (SearchResultsPage.healthRange f)) (Repository.healthScore r));
    [discriminate|].
  cbn [orb] in K. split; [lia|].
  rewrite Z.gtb_ltb in K.
  split; [|split].
  - intros Hm. destruct (Z.ltb_spec 0 (SearchResultsPage.minIssues f)); [|lia]. cbn [andb] in K.
    destruct (Z.ltb_spec (JS.or_number (goodFirstIssues repo) 0) (SearchResultsPage.minIssues f));
      [discriminate|].
    unfold JS.or_number in *. destruct (goodFirstIssues repo) as [g|]; [|lia].
    exists g. split; [reflexivity|]. destruct (Z.eqb_spec g 0); lia.
  - intros Hc. rewrite Hc in K.
    destruct ((0 <? SearchResultsPage.minIssues f) && _); [discriminate|].
    destruct (hasCI repo) as [[|]|]; try reflexivity; discriminate.
  - intros Hd. rewrite Hd in K.
    destruct ((0 <? SearchResultsPage.minIssues f) && _); [discriminate|].
    destruct (SearchResultsPage.hasCi f && _); [discriminate|].
    destruct (has_wiki repo); [left; reflexivity|].
    destruct (has_pages repo); [right; left; reflexivity|].
    destruct (JS.truthy_string (homepage repo)); [right; right; reflexivity|].
    discriminate.
Qed.

Lemma X13_kept_records_satisfy_the_filters_witness :
  let filters :=
    {| SearchResultsPage.languages := []; SearchResultsPage.activityDays := 30; SearchResultsPage.healthRange := (50, 100);
       SearchResultsPage.hasGoodFirstIssues := true; SearchResultsPage.minIssues := 2; SearchResultsPage.hasCi := true;
       SearchResultsPage.hasDocs := true; SearchResultsPage.license := "mit" |} in
  let r := run (transformGitHubRepoToRepository thriving) (frozen 0) in
  SearchResultsPage.keeps filters r = true
  /\ fst (SearchResultsPage.healthRange filters) <= Repository.healthScore r <= snd (SearchResultsPage.healthRange filters)
  /\ (0 < SearchResultsPage.minIssues filters ->
      exists g, goodFirstIssues thriving = Some g /\ SearchResultsPage.minIssues filters <= g)
  /\ (SearchResultsPage.hasCi filters = true -> hasCI thriving = Some true)
  /\ (SearchResultsPage.hasDocs filters = true ->
      has_wiki thriving = true \/ has_pages thriving = true
      \/ JS.truthy_string (homepage thriving) = true).
Proof.
  cbv zeta. split; [vm_compute; reflexivity|].
  apply (X13_kept_records_satisfy_the_filters
           {| SearchResultsPage.languages := []; SearchResultsPage.activityDays := 30; SearchResultsPage.healthRange := (50, 100);
              SearchResultsPage.hasGoodFirstIssues := true; SearchResultsPage.minIssues := 2; SearchResultsPage.hasCi := true;
              SearchResultsPage.hasDocs := true; SearchResultsPage.license := "mit" |}
           thriving (frozen 0)).
  vm_compute; reflexivity.
Defined.

Lemma includes_In (arr : list string) (x : string) :
  includes arr x = true <-> In x arr.
Proof.
  unfold includes. rewrite existsb_exists. split.
  - intros (y & Hy & E). apply String.eqb_eq in E. now subst.
  - intros H. exists x. split; [exact H | apply String.eqb_refl].
Qed.

Lemma includes_not_In (arr : list string) (x : string) :
  includes arr x = false <-> ~ In x arr.
Proof.
  rewrite <- includes_In. destruct (includes arr x); split; intros; congruence.
Qed.

Lemma In_without (x c : string) (s : list string) :
  In x (filter (fun id => negb (String.eqb id c)) s) <-> In x s /\ x <> c.
Proof.
  rewrite filter_In, negb_true_iff, String.eqb_neq. reflexivity.
Qed.

Lemma NoDup_snoc (s : list string) (c : string) :
  NoDup s -> ~ In c s -> NoDup (s ++ [c]).
Proof.
  induction 1 as [|x l Hx N IH]; intros Hc; simpl.
  - constructor; [intros []|constructor].
  - constructor.
    + rewrite in_app_iff. intros [H|[H|[]]]; [auto|].
      subst. apply Hc. left. reflexivity.
    + apply IH. intros H. apply Hc. right. exact H.
Qed.

(** Membership after one click on the bookmark button. *)
Lemma In_handleBookmark (x c : string) (s : list string) :
  In x (SearchResultsPage.handleBookmark c s)
  <-> (x = c /\ ~ In c s) \/ (x <> c /\ In x s).
Proof.
  unfold SearchResultsPage.handleBookmark.
  destruct (includes s c) eqn:E.
  - apply includes_In in E. rewrite In_without. intuition.
  - apply includes_not_In in E. rewrite in_app_iff. simpl.
    destruct (string_dec x c) as [->|N]; intuition congruence.
Qed.

Lemma NoDup_handleBookmark (c : string) (s : list string) :
  NoDup s -> NoDup (SearchResultsPage.handleBookmark c s).
Proof.
  intros N. unfold SearchResultsPage.handleBookmark.
  destruct (includes s c) eqn:E.
  - apply NoDup_filter, N.
  - apply NoDup_snoc; [exact N | apply includes_not_In, E].
Qed.

Lemma bookmarksAfter_snoc (clicks : list string) (c : string) :
  SearchResultsPage.bookmarksAfter (clicks ++ [c])
  = SearchResultsPage.handleBookmark c (SearchResultsPage.bookmarksAfter clicks).
Proof. unfold SearchResultsPage.bookmarksAfter. now rewrite fold_left_app. Qed.

(** X14.  Bookmarks toggle: after any sequence of clicks a repository is
    bookmarked exactly when it was clicked an odd number of times, and no
    repository is bookmarked twice; clicking twice on a repository that
    was not bookmarked restores the list. *)
Theorem X14_bookmarks_toggle :
  (forall clicks,
      NoDup (SearchResultsPage.bookmarksAfter clicks)
      /\ forall repoId,
          In repoId (SearchResultsPage.bookmarksAfter clicks)
          <-> Nat.odd (count_occ string_dec clicks repoId) = true)
  /\ (forall repoId prev,
         ~ In repoId prev ->
         SearchResultsPage.handleBookmark repoId
           (SearchResultsPage.handleBookmark repoId prev) = prev).
Proof.
  split.
  - induction clicks as [|c clicks [N IH]] using rev_ind.
    + split; [constructor|]. intros x. simpl. split; [intros []|discriminate].
    + rewrite bookmarksAfter_snoc. split; [apply NoDup_handleBookmark, N|].
      intros x. rewrite In_handleBookmark, count_occ_app. cbn [count_occ].
      destruct (string_dec c x) as [->|Ne].
      * rewrite Nat.add_1_r, Nat.odd_succ, <- Nat.negb_odd, negb_true_iff.
        rewrite IH. destruct (Nat.odd _); intuition congruence.
      * rewrite Nat.add_0_r, <- IH. intuition congruence.
  - intros c s H. unfold SearchResultsPage.handleBookmark.
    replace (includes s c) with false by (symmetry; apply includes_not_In, H).
    replace (includes (s ++ [c]) c) with true
      by (symmetry; apply includes_In, in_app_iff; right; left; reflexivity).
    rewrite filter_app. cbn [filter]. rewrite String.eqb_refl. cbn [negb].
    rewrite app_nil_r.
    induction s as [|y s IH]; [reflexivity|]. cbn [filter].
    destruct (String.eqb_spec y c) as [->|Ne].
    + exfalso. apply H. left. reflexivity.
    + cbn [negb]. f_equal. apply IH. intros I. apply H. right. exact I.
Qed.

Lemma handleCompare_next (repositories : list Repository.t) (c : string)
    (s : list string) :
  let s' := fst (SearchResultsPage.handleCompare repositories c s) in
  (NoDup s -> NoDup s')
  /\ ((List.length s <= 3)%nat -> (List.length s' <= 3)%nat)
  /\ (forall x, In x s' -> x = c \/ In x s).
Proof.
  unfold SearchResultsPage.handleCompare. cbn [fst].
  destruct (includes s c) eqn:E.
  - split; [apply NoDup_filter|]. split.
    + intros L. pose proof (filter_length_le (fun id => negb (String.eqb id c)) s). lia.
    + intros x H. apply In_without in H. right. apply H.
  - destruct (Z.ltb_spec (Z.of_nat (List.length s)) 3).
    + split; [intros N; apply NoDup_snoc; [exact N | apply includes_not_In, E]|].
      split; [intros _; rewrite length_app; simpl; lia|].
      intros x H'. apply in_app_iff in H'. simpl in H'. intuition.
    + split; [auto|]. split; [auto|]. intros x H'. right. exact H'.
Qed.

(** X15.  After any sequence of clicks on the compare button the
    selection holds at most three repositories, none twice, and only
    repositories that were clicked; a fourth repository is not added. *)
Theorem X15_comparison_holds_at_most_three :
  (forall repositories clicks,
      let s := SearchResultsPage.comparingAfter repositories clicks in
      (List.length s <= 3)%nat
      /\ NoDup s
      /\ forall repoId, In repoId s -> In repoId clicks)
  /\ (forall repositories repoId prev,
         (3 <= List.length prev)%nat ->
         ~ In repoId prev ->
         fst (SearchResultsPage.handleCompare repositories repoId prev) = prev).
Proof.
  split.
  - intros repositories clicks. cbv zeta.
    induction clicks as [|c clicks (L & N & I)] using rev_ind.
    + split; [simpl; lia|]. split; [constructor|]. intros x [].
    + unfold SearchResultsPage.comparingAfter in *. rewrite fold_left_app.
      cbn [fold_left].
      destruct (handleCompare_next repositories c
                  (fold_left (fun state repoId =>
                                fst (SearchResultsPage.handleCompare
                                       repositories repoId state)) clicks []))
        as (N' & L' & I').
      split; [apply L', L|]. split; [apply N', N|].
      intros x H. rewrite in_app_iff. destruct (I' x H) as [->|H'].
      * right. left. reflexivity.
      * left. apply I, H'.
  - intros repositories c s L H. unfold SearchResultsPage.handleCompare. cbn [fst].
    replace (includes s c) with false by (symmetry; apply includes_not_In, H).
    destruct (Z.ltb_spec (Z.of_nat (List.length s)) 3); [lia|reflexivity].
Qed.

(** Among repositories with distinct ids, the selected ones have distinct
    ids. *)
Lemma selected_ids_distinct (keep : Repository.t -> bool)
    (repositories : list Repository.t) :
  NoDup (map Repository.id repositories) ->
  NoDup (map Repository.id (filter keep repositories)).
Proof.
  intros N. induction repositories as [|r rest IH]; [constructor|].
  cbn [filter map] in *. apply NoDup_cons_iff in N. destruct N as [Hr Nrest].
  destruct (keep r); [|apply IH, Nrest].
  cbn [map]. apply NoDup_cons; [|apply IH, Nrest].
  intros Hin. apply Hr. apply in_map_iff in Hin. destruct Hin as (r' & Er & Hr').
  apply filter_In in Hr'. apply in_map_iff. exists r'. tauto.
Qed.

(** X16.  The timer of [handleCompare] is set exactly when the new
    selection holds more than one repository, and it hands [onCompare]
    the listed repositories whose id is selected, in the order of the
    list; when the listed ids are distinct and the old selection held at
    most three, these are at most three. *)
Theorem X16_compare_callback :
  forall repositories repoId prev,
    let next := SearchResultsPage.handleCompare repositories repoId prev in
    (snd next = None <-> (List.length (fst next) <= 1)%nat)
    /\ forall selected,
        snd next = Some selected ->
        selected = filter (fun r => includes (fst next) (Repository.id r)) repositories
        /\ (NoDup (map Repository.id repositories) ->
            (List.length prev <= 3)%nat ->
            (List.length selected <= 3)%nat).
Proof.
  intros repositories c s next.
  destruct (handleCompare_next repositories c s) as (_ & L & _). fold next in L.
  assert (E : snd next
              = if Z.of_nat (List.length (fst next)) >? 1
                then Some (filter (fun r => includes (fst next) (Repository.id r))
                                  repositories)
                else None) by reflexivity.
  rewrite E. clear E. rewrite Z.gtb_ltb.
  destruct (Z.ltb_spec 1 (Z.of_nat (List.length (fst next)))).
  - split; [split; [discriminate | lia]|].
    intros sel H'. injection H' as <-. split; [reflexivity|].
    intros N L3. specialize (L L3).
    set (sel := filter _ repositories).
    assert (Ns : NoDup (map Repository.id sel))
      by (apply selected_ids_distinct, N).
    assert (Inc : incl (map Repository.id sel) (fst next)).
    { intros x Hx. apply in_map_iff in Hx. destruct Hx as (r & <- & Hr).
      subst sel. apply filter_In in Hr. apply includes_In, Hr. }
    pose proof (NoDup_incl_length Ns Inc) as Len.
    rewrite length_map in Len. lia.
  - split; [split; [lia | reflexivity]|]. intros sel H'. discriminate H'.
Qed.

Lemma insert_Permutation {A} (cmp : A -> A -> Z) (x : A) (l : list A) :
  Permutation (SearchResultsPage.insert cmp x l) (x :: l).
Proof.
  induction l as [|y l IH]; cbn [SearchResultsPage.insert]; [reflexivity|].
  destruct (cmp x y <=? 0); [reflexivity|].
  rewrite IH. apply perm_swap.
Qed.

Lemma sort_Permutation {A} (cmp : A -> A -> Z) (l : list A) :
  Permutation (SearchResultsPage.sort cmp l) l.
Proof.
  induction l as [|x l IH]; cbn [SearchResultsPage.sort]; [reflexivity|].
  rewrite insert_Permutation. now constructor.
Qed.

Section SortedBy.

Context {A : Type} (cmp : A -> A -> Z) (before : A -> A -> Prop).
Hypothesis cmp_le : forall a b, cmp a b <= 0 -> before a b.
Hypothesis cmp_gt : forall a b, 0 < cmp a b -> before b a.

Lemma insert_HdRel (x y : A) (l : list A) :
  before y x -> HdRel before y l -> HdRel before y (SearchResultsPage.insert cmp x l).
Proof.
  intros Hyx H. destruct l as [|z l]; cbn [SearchResultsPage.insert].
  - constructor. exact Hyx.
  - destruct (cmp x z <=? 0); constructor; [exact Hyx|].
    inversion H; assumption.
Qed.

Lemma insert_Sorted (x : A) (l : list A) :
  Sorted before l -> Sorted before (SearchResultsPage.insert cmp x l).
Proof.
  induction 1 as [|y l S IH H]; cbn [SearchResultsPage.insert].
  - repeat constructor.
  - destruct (Z.leb_spec (cmp x y) 0) as [L|G].
    + constructor; [constructor; assumption|]. constructor. apply cmp_le, L.
    + constructor; [exact IH|]. apply insert_HdRel; [apply cmp_gt, G | exact H].
Qed.

Lemma sort_Sorted (l : list A) : Sorted before (SearchResultsPage.sort cmp l).
Proof.
  induction l as [|x l IH]; cbn [SearchResultsPage.sort];
    [constructor | apply insert_Sorted, IH].
Qed.

End SortedBy.

(** Sorting by the difference of an integer key puts larger keys first. *)
Lemma sort_by_key_descending {A} (key : A -> Z) (l : list A) :
  StronglySorted (fun a b => key b <= key a)
                 (SearchResultsPage.sort (fun a b => key b - key a) l).
Proof.
  apply Sorted_StronglySorted; [intros a b c; lia|].
  apply sort_Sorted; intros a b; lia.
Qed.

(** X17.  Whatever the sort key and the collation, the page shows exactly
    the stored repositories: the sorted list is a permutation of the
    list. *)
Theorem X17_sorting_keeps_the_repositories :
  forall localeCompare sortBy repositories,
    Permutation
      (SearchResultsPage.sortedRepos localeCompare sortBy repositories)
      repositories.
Proof. intros. apply sort_Permutation. Qed.

(** X18.  Sorted by "health", by "stars" or by "issues", every repository
    shown earlier has a health score, star count or good-first-issue
    count at least that of every repository shown later; with a key
    outside the four known ones the order is left as it is. *)
Theorem X18_sort_orders :
  forall localeCompare repositories,
    StronglySorted
      (fun a b => Repository.healthScore b <= Repository.healthScore a)
      (SearchResultsPage.sortedRepos localeCompare "health" repositories)
    /\ StronglySorted
         (fun a b => Repository.stars b <= Repository.stars a)
         (SearchResultsPage.sortedRepos localeCompare "stars" repositories)
    /\ StronglySorted
         (fun a b => Repository.goodFirstIssues b <= Repository.goodFirstIssues a)
         (SearchResultsPage.sortedRepos localeCompare "issues" repositories)
    /\ forall sortBy,
        sortBy <> "health" -> sortBy <> "stars" ->
        sortBy <> "activity" -> sortBy <> "issues" ->
        SearchResultsPage.sortedRepos localeCompare sortBy repositories
        = repositories.
Proof.
  intros lc repos.
  split; [apply (sort_by_key_descending Repository.healthScore)|].
  split; [apply (sort_by_key_descending Repository.stars)|].
  split; [apply (sort_by_key_descending Repository.goodFirstIssues)|].
  intros key H1 H2 H3 H4. unfold SearchResultsPage.sortedRepos.
  assert (C : forall a b, SearchResultsPage.comparator lc key a b = 0).
  { intros a b. unfold SearchResultsPage.comparator.
    apply String.eqb_neq in H1, H2, H3, H4. now rewrite H1, H2, H3, H4. }
  induction repos as [|x l IH]; [reflexivity|].
  cbn [SearchResultsPage.sort]. rewrite IH.
  destruct l as [|y l]; [reflexivity|].
  cbn [SearchResultsPage.insert]. now rewrite C.
Qed.

(* ===================================================================== *)
(** ** The hosting API client *)
(* ===================================================================== *)

Lemma starts_with_app (lit s r : string) :
  GitHubApi.starts_with lit s = Some r <-> s = lit ++ r.
Proof.
  revert s. induction lit as [|a lit IH]; intros s; cbn [GitHubApi.starts_with append].
  - split; [intros [= ->]; reflexivity | intros ->; reflexivity].
  - destruct s as [|b s]; [split; discriminate|].
    destruct (Ascii.eqb_spec a b) as [->|Ne].
    + rewrite IH. split; [intros ->; reflexivity | intros [= ->]; reflexivity].
    + split; [discriminate | intros [= E _]; congruence].
Qed.

Lemma string_app_eq_app (a b x y : string) :
  a ++ b = x ++ y ->
  (exists m, x = a ++ m /\ b = m ++ y) \/ (exists m, a = x ++ m /\ y = m ++ b).
Proof.
  revert x. induction a as [|c a IH]; intros x H; cbn [append] in *.
  - left. exists x. split; [reflexivity | exact H].
  - destruct x as [|d x]; cbn [append] in H.
    + right. exists (String c a). split; [reflexivity | symmetry; exact H].
    + injection H as -> H. destruct (IH x H) as [(m & -> & ->)|(m & -> & ->)].
      * left. exists m. split; reflexivity.
      * right. exists m. split; reflexivity.
Qed.

Lemma append_nil_r_local (s : string) : s ++ "" = s.
Proof. induction s as [|c s IH]; cbn [append]; [reflexivity | now rewrite IH]. Qed.

Lemma has_char_app (c : ascii) (a b : string) :
  has_char c (a ++ b) = has_char c a || has_char c b.
Proof.
  induction a as [|x a IH]; cbn [append has_char]; [reflexivity|].
  now rewrite IH, orb_assoc.
Qed.

Lemma occurs_app (lit u v : string) : occurs lit (u ++ lit ++ v) = true.
Proof.
  induction u as [|c u IH]; cbn [append].
  - destruct (lit ++ v) eqn:E; cbn [occurs];
      (replace (GitHubApi.starts_with lit _) with (Some v)
        by (symmetry; apply starts_with_app; congruence)); reflexivity.
  - cbn [occurs]. destruct (GitHubApi.starts_with lit _); [reflexivity | exact IH].
Qed.

Lemma digit_is_not_p (c : ascii) :
  GitHubApi.is_digit c = true -> Ascii.eqb c "p" = false.
Proof.
  destruct c as [[|] [|] [|] [|] [|] [|] [|] [|]]; intros H;
    try reflexivity; discriminate H.
Qed.

Lemma all_digits_no_p (s : string) : all_digits s = true -> has_char "p" s = false.
Proof.
  induction s as [|c s IH]; cbn [all_digits has_char]; [reflexivity|].
  intros H. apply andb_true_iff in H. destruct H as [Hc Hs].
  now rewrite (digit_is_not_p c Hc), IH.
Qed.

Lemma take_digits_spec (s : string) :
  let (ds, rest) := GitHubApi.take_digits s in
  s = ds ++ rest /\ all_digits ds = true.
Proof.
  induction s as [|c s IH]; cbn [GitHubApi.take_digits]; [split; reflexivity|].
  destruct (GitHubApi.is_digit c) eqn:D; [|split; reflexivity].
  destruct (GitHubApi.take_digits s) as [ds rest]. destruct IH as [-> A].
  split; [reflexivity|]. cbn [all_digits]. now rewrite D, A.
Qed.

(** The longest run of digits in front of a non-digit. *)
Lemma take_digits_app (ds rest : string) :
  all_digits ds = true ->
  match rest with String c _ => GitHubApi.is_digit c = false | EmptyString => True end ->
  GitHubApi.take_digits (ds ++ rest) = (ds, rest).
Proof.
  intros A R. induction ds as [|c ds IH]; cbn [append].
  - destruct rest as [|c r]; [reflexivity|]. cbn [GitHubApi.take_digits]. now rewrite R.
  - cbn [all_digits] in A. apply andb_true_iff in A. destruct A as [Dc A].
    cbn [GitHubApi.take_digits]. now rewrite Dc, (IH A).
Qed.

(** A match at the start of [s] spells out the pattern there. *)
Lemma match_here_spec (s ds : string) :
  GitHubApi.match_here s = Some ds ->
  ds <> "" /\ all_digits ds = true
  /\ exists rest, s = "page=" ++ ds ++ GitHubApi.last_marker ++ rest.
Proof.
  unfold GitHubApi.match_here.
  destruct (GitHubApi.starts_with "page=" s) as [r|] eqn:P; [|discriminate].
  apply starts_with_app in P.
  pose proof (take_digits_spec r) as T.
  destruct (GitHubApi.take_digits r) as [d rest]. destruct T as [-> A].
  destruct d as [|c d]; [discriminate|].
  destruct (GitHubApi.starts_with GitHubApi.last_marker rest) as [t|] eqn:L;
    [|discriminate].
  apply starts_with_app in L. intros [= <-].
  split; [discriminate|]. split; [exact A|].
  exists t. subst. reflexivity.
Qed.

Lemma match_last_page_spec (s ds : string) :
  GitHubApi.match_last_page s = Some ds -> ds <> "" /\ all_digits ds = true.
Proof.
  induction s as [|c s IH]; cbn [GitHubApi.match_last_page].
  - destruct (GitHubApi.match_here "") eqn:M; [|discriminate].
    intros [= <-]. apply match_here_spec in M. tauto.
  - destruct (GitHubApi.match_here (String c s)) eqn:M; [|exact IH].
    intros [= <-]. apply match_here_spec in M. tauto.
Qed.

Lemma uint_of_digits (ds : string) :
  all_digits ds = true -> exists u, NilEmpty.uint_of_string ds = Some u.
Proof.
  induction ds as [|c ds IH]; cbn [all_digits NilEmpty.uint_of_string];
    [eexists; reflexivity|].
  intros H. apply andb_true_iff in H. destruct H as [Dc A].
  destruct (IH A) as [u ->].
  destruct c as [[|] [|] [|] [|] [|] [|] [|] [|]]; try discriminate Dc;
    eexists; reflexivity.
Qed.

Lemma parseInt_digits (ds : string) :
  ds <> "" -> all_digits ds = true ->
  exists n, GitHubApi.parseInt ds = Some n /\ 0 <= n.
Proof.
  intros Ne A. destruct (uint_of_digits ds A) as [u E].
  unfold GitHubApi.parseInt, NilZero.uint_of_string.
  destruct ds; [congruence|]. rewrite E. cbn [option_map].
  eexists. split; [reflexivity|]. unfold Z.of_uint. apply N2Z.is_nonneg.
Qed.

Lemma string_of_nonneg (n : Z) :
  0 <= n ->
  JS.String_of n <> ""
  /\ all_digits (JS.String_of n) = true
  /\ GitHubApi.parseInt (JS.String_of n) = Some n.
Proof.
  intros Hn.
  assert (D : forall u, all_digits (NilEmpty.string_of_uint u) = true)
    by (induction u; cbn [NilEmpty.string_of_uint all_digits]; auto).
  assert (U : exists u, u <> Decimal.Nil /\ Z.to_int n = Decimal.Pos u).
  { destruct n as [|p|p]; [| |lia].
    - exists (Decimal.D0 Decimal.Nil). split; [discriminate | reflexivity].
    - exists (Pos.to_uint p). split; [apply DecimalPos.Unsigned.to_uint_nonnil | reflexivity]. }
  destruct U as (u & Nu & Eu).
  pose proof (DecimalZ.of_to n) as OT. rewrite Eu in OT. cbn [Z.of_int] in OT.
  unfold JS.String_of. rewrite Eu. cbn [NilZero.string_of_int].
  assert (S : NilZero.string_of_uint u = NilEmpty.string_of_uint u)
    by (destruct u; [congruence | reflexivity ..]).
  split; [rewrite S; destruct u; [congruence | discriminate ..]|].
  split; [rewrite S; apply D|].
  unfold GitHubApi.parseInt. rewrite (NilZero.usu u Nu). cbn [option_map].
  now rewrite OT.
Qed.

(** X19.  [getRepositoryContributors] always answers with a non-negative
    integer, never with [NaN]: the pattern captures digits only.  It
    answers 0 when the request is rejected or the response is not [ok],
    and the number of array entries when there is no [Link] header. *)
Theorem X19_contributor_count_is_a_natural_number :
  forall (A : Type) (outcome : GitHubApi.Fetched (list A)),
    exists n,
      GitHubApi.getRepositoryContributors outcome = Some n
      /\ 0 <= n
      /\ (failed outcome = true -> n = 0)
      /\ (forall response contributors,
             outcome = GitHubApi.Arrived response (Some contributors) ->
             GitHubApi.ok response = true ->
             GitHubApi.link response = None ->
             n = Z.of_nat (List.length contributors)).
Proof.
  intros A [|response body]; cbn [GitHubApi.getRepositoryContributors failed].
  - exists 0. split; [reflexivity|]. split; [lia|]. split; [reflexivity|].
    intros; discriminate.
  - destruct (GitHubApi.ok response) eqn:O; cbn [negb].
    2:{ exists 0. split; [reflexivity|]. split; [lia|]. split; [reflexivity|].
        intros r c [= <- _] Ok. congruence. }
    set (fromBody := match body with
                     | Some c => Some (Z.of_nat (List.length c))
                     | None => Some 0
                     end).
    assert (F : exists n, fromBody = Some n /\ 0 <= n
                          /\ forall c, body = Some c -> n = Z.of_nat (List.length c)).
    { subst fromBody. destruct body as [c|]; eexists;
        (split; [reflexivity|]); (split; [lia|]); intros c' E;
        [injection E as <-; reflexivity | discriminate]. }
    destruct (JS.truthy_string (GitHubApi.link response)) eqn:T.
    + destruct (GitHubApi.match_last_page _) as [ds|] eqn:M.
      * destruct (match_last_page_spec _ _ M) as [Ne Ad].
        destruct (parseInt_digits ds Ne Ad) as (n & E & Hn).
        exists n. split; [exact E|]. split; [exact Hn|].
        split; [discriminate|].
        intros r c [= <- _] _ L. rewrite L in T. discriminate T.
      * destruct F as (n & E & Hn & B). exists n.
        split; [exact E|]. split; [exact Hn|]. split; [discriminate|].
        intros r c [= _ ->] _ _. apply B. reflexivity.
    + destruct F as (n & E & Hn & B). exists n.
      split; [exact E|]. split; [exact Hn|]. split; [discriminate|].
      intros r c [= _ ->] _ _. apply B. reflexivity.
Qed.

(** Nothing matches ahead of the marker: a match that starts inside
    [pre] would need the marker inside [pre] as well. *)
Lemma no_match_before (c : ascii) (pre core : string) :
  occurs GitHubApi.last_marker (String c pre) = false ->
  GitHubApi.match_here (String c pre ++ String "p" core) = None.
Proof.
  intros Hpre.
  destruct (GitHubApi.match_here _) as [ds|] eqn:M; [exfalso|reflexivity].
  destruct (match_here_spec _ _ M) as (_ & Ad & rest & E).
  assert (NoP : has_char "p" ("age=" ++ ds) = false)
    by (rewrite has_char_app, (all_digits_no_p ds Ad); reflexivity).
  assert (NoPm : has_char "p" GitHubApi.last_marker = false) by reflexivity.
  assert (Gt : exists t, GitHubApi.last_marker = String ">" t)
    by (eexists; reflexivity).
  set (lit := GitHubApi.last_marker) in *.
  change ("page=" ++ ds ++ lit ++ rest)
    with (String "p" ("age=" ++ (ds ++ lit ++ rest))) in E.
  change (String c pre ++ String "p" core)
    with (String c (pre ++ String "p" core)) in E.
  injection E as -> E.
  assert (E' : pre ++ String "p" core = ("age=" ++ ds) ++ lit ++ rest)
    by (rewrite append_assoc; exact E).
  destruct (string_app_eq_app _ _ _ _ E') as [(m & Em & Ec)|(m & Em & Ec)].
  - destruct m as [|a m].
    + (* the marker of the match would start at the marked "page=" *)
      destruct Gt as [t Gt]. rewrite Gt in Ec. discriminate Ec.
    + (* the digits of the match would hold the [p] of the marked "page=" *)
      cbn [append] in Ec. injection Ec as <- _.
      rewrite Em, has_char_app in NoP. cbn [has_char] in NoP.
      rewrite Ascii.eqb_refl, orb_true_r in NoP. discriminate NoP.
  - destruct (string_app_eq_app _ _ _ _ Ec) as [(k & Ek & _)|(k & Ek & Er)].
    + (* the marker of the match lies inside [pre] *)
      rewrite Ek in Em. rewrite Em in Hpre.
      assert (O : occurs lit (String "p" ("age=" ++ ds) ++ lit ++ k) = false)
        by exact Hpre.
      rewrite occurs_app in O. discriminate O.
    + destruct k as [|a k].
      * (* the marker of the match ends where [pre] ends *)
        rewrite append_nil_r_local in Ek. rewrite <- Ek in Em. rewrite Em in Hpre.
        rewrite <- (append_nil_r_local lit) in Hpre at 2.
        assert (O : occurs lit (String "p" ("age=" ++ ds) ++ lit ++ "") = false)
          by exact Hpre.
        rewrite occurs_app in O. discriminate O.
      * (* the marker would hold the [p] of the marked "page=" *)
        cbn [append] in Er. injection Er as <- _.
        rewrite Ek, has_char_app in NoPm. cbn [has_char] in NoPm.
        rewrite Ascii.eqb_refl, orb_true_r in NoPm. discriminate NoPm.
Qed.

Lemma match_last_page_eq (s : string) :
  GitHubApi.match_last_page s
  = match GitHubApi.match_here s with
    | Some ds => Some ds
    | None =>
        match s with
        | String _ r => GitHubApi.match_last_page r
        | EmptyString => None
        end
    end.
Proof. destruct s; reflexivity. Qed.

Lemma match_marked_page (pre ds post : string) :
  ds <> "" -> all_digits ds = true ->
  occurs GitHubApi.last_marker pre = false ->
  GitHubApi.match_last_page (pre ++ "page=" ++ ds ++ GitHubApi.last_marker ++ post)
  = Some ds.
Proof.
  intros Ne Ad. induction pre as [|c pre IH]; intros Hpre.
  - change (GitHubApi.match_last_page
              ("page=" ++ ds ++ GitHubApi.last_marker ++ post) = Some ds).
    assert (M : GitHubApi.match_here
                  ("page=" ++ ds ++ GitHubApi.last_marker ++ post) = Some ds).
    { unfold GitHubApi.match_here.
      replace (GitHubApi.starts_with "page=" _)
        with (Some (ds ++ GitHubApi.last_marker ++ post))
        by (symmetry; apply starts_with_app; reflexivity).
      rewrite take_digits_app; [|exact Ad|reflexivity].
      destruct ds as [|d ds]; [congruence|].
      replace (GitHubApi.starts_with GitHubApi.last_marker _) with (Some post)
        by (symmetry; apply starts_with_app; reflexivity).
      reflexivity. }
    now rewrite match_last_page_eq, M.
  - change ((String c pre) ++ "page=" ++ ds ++ GitHubApi.last_marker ++ post)
      with (String c pre
            ++ String "p" ("age=" ++ ds ++ GitHubApi.last_marker ++ post)).
    assert (N := no_match_before c pre
                   ("age=" ++ ds ++ GitHubApi.last_marker ++ post) Hpre).
    change (String c pre
            ++ String "p" ("age=" ++ ds ++ GitHubApi.last_marker ++ post))
      with (String c (pre ++ "page=" ++ ds ++ GitHubApi.last_marker ++ post))
      in N |- *.
    rewrite match_last_page_eq, N. apply IH.
    cbn [occurs] in Hpre.
    destruct (GitHubApi.starts_with GitHubApi.last_marker (String c pre));
      [discriminate | exact Hpre].
Qed.

(** X20.  The contributor count is read off the [Link] header: when the
    header advertises page [n] (an integer a double holds exactly) as the
    last one, and the marker [>; rel="last"] does not occur earlier in
    the header, an [ok] response counts [n] contributors, whatever its
    body. *)
Theorem X20_last_page_is_the_contributor_count :
  forall (A : Type) (pre post status : string) (body : option (list A)) (n : Z),
    0 <= n < 2 ^ 53 ->
    occurs GitHubApi.last_marker pre = false ->
    GitHubApi.getRepositoryContributors
      (GitHubApi.Arrived
         {| GitHubApi.ok := true;
            GitHubApi.statusText := status;
            GitHubApi.link :=
              Some (pre ++ "page=" ++ JS.String_of n
                        ++ GitHubApi.last_marker ++ post) |}
         body)
    = Some n.
Proof.
  intros A pre post status body n [Hn _] Hpre.
  destruct (string_of_nonneg n Hn) as (Ne & Ad & P).
  cbn [GitHubApi.getRepositoryContributors GitHubApi.ok GitHubApi.link negb
       GitHubApi.string_or_empty].
  assert (T : JS.truthy_string
                (Some (pre ++ "page=" ++ JS.String_of n
                           ++ GitHubApi.last_marker ++ post)) = true).
  { cbn [JS.truthy_string]. apply negb_true_iff, String.eqb_neq.
    destruct pre; discriminate. }
  rewrite T, (match_marked_page pre _ post Ne Ad Hpre). exact P.
Qed.

Lemma X20_last_page_is_the_contributor_count_witness :
  0 <= 4123 < 2 ^ 53
  /\ occurs GitHubApi.last_marker sample_link = false
  /\ GitHubApi.getRepositoryContributors
       (GitHubApi.Arrived
          {| GitHubApi.ok := true;
             GitHubApi.statusText := "OK";
             GitHubApi.link :=
               Some (sample_link ++ "page=" ++ JS.String_of 4123
                       ++ GitHubApi.last_marker ++ "") |}
          (Some [tt]))
     = Some 4123.
Proof.
  split; [vm_compute; split; [discriminate | reflexivity]|].
  split; [vm_compute; reflexivity|].
  apply (X20_last_page_is_the_contributor_count unit sample_link "" "OK"
           (Some [tt]) 4123).
  - vm_compute; split; [discriminate | reflexivity].
  - vm_compute; reflexivity.
Defined.

(** X21.  A lookup that fails leaves no trace: when the three lookups of
    a search item fail (rejected, or a response that is not [ok]), the
    transformer returns the very record it returns for the item without
    the three fields, with 0 contributors, 0 good first issues and the
    [warning] status. *)
Theorem X21_failed_lookups_look_like_empty_values :
  forall (A : Type) item (contributorsLookup : GitHubApi.Fetched (list A))
         issuesLookup workflowsLookup w,
    failed contributorsLookup = true ->
    failed issuesLookup = true ->
    failed workflowsLookup = true ->
    let r := run (transformGitHubRepoToRepository
                    (enriched item contributorsLookup issuesLookup workflowsLookup))
                 w in
    r = run (transformGitHubRepoToRepository (without_lookups item)) w
    /\ Repository.contributors r = 0
    /\ Repository.goodFirstIssues r = 0
    /\ Repository.ciStatus r = warning.
Proof.
  intros A item oc og ow w Fc Fg Fw.
  assert (Ec : GitHubApi.getRepositoryContributors oc = Some 0).
  { destruct oc as [|r b]; [reflexivity|]. cbn [failed] in Fc.
    cbn [GitHubApi.getRepositoryContributors]. now rewrite Fc. }
  assert (Eg : GitHubApi.getGoodFirstIssues og = 0).
  { destruct og as [|r b]; [reflexivity|]. cbn [failed] in Fg.
    cbn [GitHubApi.getGoodFirstIssues]. now rewrite Fg. }
  assert (Ew : GitHubApi.getRepositoryWorkflows ow = false).
  { destruct ow as [|r b]; [reflexivity|]. cbn [failed] in Fw.
    cbn [GitHubApi.getRepositoryWorkflows]. now rewrite Fw. }
  unfold enriched. rewrite Ec, Eg, Ew. cbv zeta.
  repeat split; reflexivity.
Qed.

Lemma X21_failed_lookups_look_like_empty_values_witness :
  failed (@GitHubApi.Rejected (list unit)) = true
  /\ failed (@GitHubApi.Rejected GitHubApi.Counted) = true
  /\ failed (GitHubApi.Arrived
               {| GitHubApi.ok := false; GitHubApi.statusText := "Forbidden";
                  GitHubApi.link := None |}
               (Some {| GitHubApi.total_count := Some 7 |})) = true
  /\ (let r := run (transformGitHubRepoToRepository
                      (enriched thriving (@GitHubApi.Rejected (list unit))
                         GitHubApi.Rejected
                         (GitHubApi.Arrived
                            {| GitHubApi.ok := false;
                               GitHubApi.statusText := "Forbidden";
                               GitHubApi.link := None |}
                            (Some {| GitHubApi.total_count := Some 7 |}))))
                   (frozen 0) in
      r = run (transformGitHubRepoToRepository (without_lookups thriving)) (frozen 0)
      /\ Repository.contributors r = 0
      /\ Repository.goodFirstIssues r = 0
      /\ Repository.ciStatus r = warning).
Proof.
  split; [reflexivity|]. split; [reflexivity|]. split; [reflexivity|].
  apply (X21_failed_lookups_look_like_empty_values unit thriving
           GitHubApi.Rejected GitHubApi.Rejected
           (GitHubApi.Arrived
              {| GitHubApi.ok := false; GitHubApi.statusText := "Forbidden";
                 GitHubApi.link := None |}
              (Some {| GitHubApi.total_count := Some 7 |}))
           (frozen 0)); reflexivity.
Defined.

Lemma to_int_not_nil (z : Z) :
  Z.to_int z <> Decimal.Pos Decimal.Nil /\ Z.to_int z <> Decimal.Neg Decimal.Nil.
Proof.
  destruct z as [|p|p]; cbn [Z.to_int]; split; try discriminate;
    intros [= E]; exact (DecimalPos.Unsigned.to_uint_nonnil p E).
Qed.

(** [String(n)] tells integers apart. *)
Lemma String_of_inj (a b : Z) : JS.String_of a = JS.String_of b -> a = b.
Proof.
  unfold JS.String_of. intros E.
  destruct (to_int_not_nil a) as [A1 A2]. destruct (to_int_not_nil b) as [B1 B2].
  pose proof (NilZero.isi (Z.to_int a) A1 A2) as Ia.
  pose proof (NilZero.isi (Z.to_int b) B1 B2) as Ib.
  rewrite E, Ib in Ia. injection Ia as Ia.
  symmetry. apply DecimalZ.to_int_inj, Ia.
Qed.

Lemma prefix_app (a b : string) : String.prefix a (a ++ b) = true.
Proof.
  induction a as [|c a IH]; cbn [append String.prefix].
  - destruct b; reflexivity.
  - destruct (ascii_dec c c); [exact IH | congruence].
Qed.

Lemma fold_push {A B} (f : A -> B) (l : list A) (parts : list B) :
  fold_left (fun parts x => JS.push parts (f x)) l parts
  = (parts ++ map f l)%list.
Proof.
  revert parts. induction l as [|x l IH]; intros parts; cbn [fold_left map].
  - now rewrite app_nil_r.
  - rewrite IH. unfold JS.push. now rewrite <- app_assoc.
Qed.

(** The first part of the query is the search text, or [stars:>1000]. *)
Lemma queryParts_head (options : GitHubApi.SearchOptions) :
  exists rest,
    GitHubApi.queryParts options
    = JS.or_string (Some (GitHubApi.query options)) "stars:>1000" :: rest.
Proof.
  unfold GitHubApi.queryParts. rewrite fold_push. unfold JS.push.
  repeat match goal with
         | |- context [if ?c then _ else _] => destruct c
         end;
    cbn [app]; eexists; reflexivity.
Qed.

(** X22.  The search request never carries an empty or zero parameter:
    [q] starts with the search text, or with [stars:>1000] when the text
    is empty, so it is never empty; [per_page] and [page] are never 0: an
    absent or zero option gives 30 and 1, any other number is sent as it
    is; [sort] and [order] are never empty: an absent or empty option
    gives [stars] and [desc]. *)
Theorem X22_search_request_is_never_empty :
  forall options,
    let p := GitHubApi.searchParams options in
    let text := GitHubApi.query options in
    String.prefix (if String.eqb text "" then "stars:>1000" else text)
                  (GitHubApi.q p) = true
    /\ GitHubApi.q p <> ""
    /\ GitHubApi.per_page p <> "0"
    /\ GitHubApi.p_page p <> "0"
    /\ GitHubApi.per_page p
       = match GitHubApi.perPage options with
         | None | Some 0 => "30"
         | Some n => JS.String_of n
         end
    /\ GitHubApi.p_page p
       = match GitHubApi.page options with
         | None | Some 0 => "1"
         | Some n => JS.String_of n
         end
    /\ GitHubApi.p_sort p <> ""
    /\ GitHubApi.p_order p <> ""
    /\ GitHubApi.p_sort p
       = match GitHubApi.sort options with
         | None | Some "" => "stars"
         | Some s => s
         end
    /\ GitHubApi.p_order p
       = match GitHubApi.order options with
         | None | Some "" => "desc"
         | Some s => s
         end.
Proof.
  intros options p text. subst p.
  cbn [GitHubApi.searchParams GitHubApi.q GitHubApi.per_page GitHubApi.p_page
       GitHubApi.p_sort GitHubApi.p_order].
  destruct (queryParts_head options) as [rest E]. rewrite E.
  cbn [JS.or_string]. fold text.
  set (base := if String.eqb text "" then "stars:>1000" else text).
  assert (Nb : base <> "").
  { subst base. destruct (String.eqb_spec text ""); [discriminate | assumption]. }
  assert (C : exists more, String.concat " " (base :: rest) = base ++ more).
  { destruct rest as [|x rest]; cbn [String.concat].
    - exists "". symmetry. apply append_nil_r_local.
    - eexists. reflexivity. }
  destruct C as [more ->].
  split; [apply prefix_app|].
  split; [destruct base; [congruence | discriminate]|].
  assert (Z0 : forall n d, d <> 0 -> JS.String_of (JS.or_number n d) <> "0").
  { intros n d Hd H. change "0" with (JS.String_of 0) in H.
    apply String_of_inj in H. unfold JS.or_number in H.
    destruct n as [z|]; [|congruence].
    destruct (Z.eqb_spec z 0); congruence. }
  split; [apply Z0; discriminate|]. split; [apply Z0; discriminate|].
  split; [destruct (GitHubApi.perPage options) as [[|n|n]|]; reflexivity|].
  split; [destruct (GitHubApi.page options) as [[|n|n]|]; reflexivity|].
  split; [|split; [|split]].
  - destruct (GitHubApi.sort options) as [s|]; cbn [JS.or_string]; [|discriminate].
    destruct (String.eqb_spec s ""); [discriminate | assumption].
  - destruct (GitHubApi.order options) as [s|]; cbn [JS.or_string]; [|discriminate].
    destruct (String.eqb_spec s ""); [discriminate | assumption].
  - destruct (GitHubApi.sort options) as [[|c s]|]; reflexivity.
  - destruct (GitHubApi.order options) as [[|c s]|]; reflexivity.
Qed.

(** X23.  What the badges of an enriched item rest on: the CI status is
    [passing] exactly when the workflows lookup arrived [ok] with a body
    that counts at least one workflow (whether any of them passes is not
    looked at), and "Beginner Friendly" is signalled exactly when the
    issues lookup arrived [ok] with a positive count. *)
Theorem X23_badges_follow_the_lookups :
  forall (A : Type) item (contributorsLookup : GitHubApi.Fetched (list A))
         issuesLookup workflowsLookup w,
    let r := run (transformGitHubRepoToRepository
                    (enriched item contributorsLookup issuesLookup workflowsLookup))
                 w in
    (Repository.ciStatus r = passing
     <-> exists response n,
          workflowsLookup
          = GitHubApi.Arrived response (Some {| GitHubApi.total_count := Some n |})
          /\ GitHubApi.ok response = true /\ 0 < n)
    /\ (In "Beginner Friendly" (Repository.signals r)
        <-> exists response n,
             issuesLookup
             = GitHubApi.Arrived response (Some {| GitHubApi.total_count := Some n |})
             /\ GitHubApi.ok response = true /\ 0 < n).
Proof.
  intros A item oc og ow w r.
  assert (S : Repository.ciStatus r
              = if GitHubApi.getRepositoryWorkflows ow then passing else warning)
    by reflexivity.
  assert (L : Repository.signals r
              = Spec.labels_that_hold
                  (signal_conditions (enriched item oc og ow) w))
    by apply transform_signals.
  rewrite S, L. clear S L. unfold signal_conditions.
  match goal with
  | |- context [Spec.labels_that_hold
                  [(_, ?a); (_, ?b); (_, ?c); (_, ?d); (_, ?e)]] =>
      destruct (labels_In a b c d e) as (_ & _ & Hc & _)
  end.
  cbv zeta in Hc. rewrite Hc. clear Hc.
  cbn [enriched goodFirstIssues positive_count].
  split.
  - destruct ow as [|response [[[n|]]|]];
      cbn [GitHubApi.getRepositoryWorkflows GitHubApi.total_count JS.gt];
      try (split; [discriminate | intros (? & ? & E & _); discriminate E]).
    + destruct (GitHubApi.ok response) eqn:O; cbn [negb].
      * rewrite Z.gtb_ltb. destruct (Z.ltb_spec 0 n).
        -- split; [intros _; exists response, n; auto | reflexivity].
        -- split; [discriminate|]. intros (? & ? & [= <- <-] & _ & ?). lia.
      * split; [discriminate|]. intros (? & ? & [= <- _] & ? & _). congruence.
    + destruct (GitHubApi.ok response); cbn [negb];
        (split; [discriminate | intros (? & ? & E & _); discriminate E]).
    + destruct (GitHubApi.ok response); cbn [negb];
        (split; [discriminate | intros (? & ? & E & _); discriminate E]).
  - destruct og as [|response [[[n|]]|]];
      cbn [GitHubApi.getGoodFirstIssues GitHubApi.total_count JS.or_number];
      try (split; [discriminate | intros (? & ? & E & _); discriminate E]).
    + destruct (GitHubApi.ok response) eqn:O; cbn [negb].
      * destruct (Z.eqb_spec n 0), (Z.ltb_spec 0 n); try lia.
        -- split; [discriminate|]. intros (? & ? & [= <- <-] & _ & ?). lia.
        -- split; [intros _; exists response, n; auto | reflexivity].
        -- split; [discriminate|]. intros (? & ? & [= <- <-] & _ & ?). lia.
      * split; [discriminate|]. intros (? & ? & [= <- _] & ? & _). congruence.
    + destruct (GitHubApi.ok response); cbn [negb];
        (split; [discriminate | intros (? & ? & E & _); discriminate E]).
    + destruct (GitHubApi.ok response); cbn [negb];
        (split; [discriminate | intros (? & ? & E & _); discriminate E]).
Qed.

(** X24.  The transformer keeps repositories apart: two records with the
    same [id] string come from inputs with the same numeric id (ids being
    integers a double holds exactly), so bookmarks and comparison
    selections, which store [id] strings, never confuse two
    repositories. *)
Theorem X24_display_ids_tell_repositories_apart :
  forall repo repo' w w',
    0 <= id repo < 2 ^ 53 ->
    0 <= id repo' < 2 ^ 53 ->
    Repository.id (run (transformGitHubRepoToRepository repo) w)
    = Repository.id (run (transformGitHubRepoToRepository repo') w') ->
    id repo = id repo'.
Proof.
  intros repo repo' w w' _ _ E. apply String_of_inj. exact E.
Qed.

Lemma X24_display_ids_tell_repositories_apart_witness :
  0 <= id thriving < 2 ^ 53
  /\ 0 <= id (with_popularity thriving 5 None) < 2 ^ 53
  /\ Repository.id (run (transformGitHubRepoToRepository thriving) (frozen 0))
     = Repository.id
         (run (transformGitHubRepoToRepository (with_popularity thriving 5 None))
              (frozen 5))
  /\ id thriving = id (with_popularity thriving 5 None).
Proof.
  split; [vm_compute; split; [discriminate | reflexivity]|].
  split; [vm_compute; split; [discriminate | reflexivity]|].
  split; [reflexivity|].
  apply (X24_display_ids_tell_repositories_apart thriving
           (with_popularity thriving 5 None) (frozen 0) (frozen 5)).
  - vm_compute; split; [discriminate | reflexivity].
  - vm_compute; split; [discriminate | reflexivity].
  - reflexivity.
Defined.
